(** * auth-template: session resolution, OAuth callback reconciliation,
      profile synchronisation and permission evaluation

    A shallow embedding of the Next.js + Supabase authentication template:

    - [database/auth-policies.sql]: the row-level policies on [public.profiles],
      [check_user_permission], [is_admin] and [log_audit_event];
    - [database/auth-schema.sql]: [get_or_create_profile],
      [update_user_profile], [handle_updated_at] and
      [sync_profile_from_auth_users];
    - [server/server-auth.ts]: [getServerSession], [authenticateUser] and
      [checkUserPermission];
    - [client/auth-callback.tsx]: [handleAuthCallback].

    SQL [NULL] is [None]; a PL/pgSQL exception is the [Raise] outcome; a
    JavaScript exception is the [Throw] completion.  Everything that lives
    outside the repository (the identity provider, the clock, the random
    identifier generator, [decodeURIComponent]) is an explicit input of the
    function that consults it. *)

From stdpp Require Import base strings list gmap.
From Stdlib Require Import ZArith Lia.

Open Scope string_scope.

(* ===================================================================== *)
(** ** SQL values, three-valued logic and JSONB extraction *)
(* ===================================================================== *)

Module Sql.

Abbreviation uuid := string.
Abbreviation text := string.
Abbreviation timestamptz := Z.

(** [a = b] in SQL: unknown as soon as one side is [NULL]. *)
Definition sql_eq {A} `{EqDecision A} (a b : option A) : option bool :=
  match a, b with
  | Some x, Some y => Some (bool_decide (x = y))
  | _, _ => None
  end.

(** [a OR b] in SQL. *)
Definition sql_or (a b : option bool) : option bool :=
  match a, b with
  | Some true, _ | _, Some true => Some true
  | Some false, Some false => Some false
  | _, _ => None
  end.

(** [a IS NULL]. *)
Definition is_null {A} (a : option A) : bool :=
  match a with None => true | Some _ => false end.

(** A condition of [IF], [WHERE], [USING] or [WITH CHECK] passes only when
    it evaluates to [TRUE]; [FALSE] and [NULL] both fail. *)
Definition holds (c : option bool) : bool :=
  match c with Some true => true | _ => false end.

(** Two-argument [COALESCE]. *)
Definition COALESCE {A} (a b : option A) : option A :=
  match a with Some _ => a | None => b end.

(** A JSON value as the [->>] operator sees it: JSON [null], a JSON string
    (extracted without its quotes), or any other value (number, boolean,
    nested document), which [->>] extracts as its text rendering. *)
Inductive json :=
| JNull
| JString (s : string)
| JOther (rendering : string).

(** A JSONB object; keys are unique, as in [jsonb].  A document that is not
    an object answers [NULL] to every [->> 'key'], like the empty object. *)
Abbreviation jsonb := (gmap string json).

(** [doc ->> key] on a nullable JSONB document: [NULL] when the document is
    [NULL], the key is missing, or the value is JSON [null]. *)
Definition get_text (doc : option jsonb) (key : string) : option text :=
  match doc with
  | None => None
  | Some o =>
      match o !! key with
      | None | Some JNull => None
      | Some (JString s) => Some s
      | Some (JOther r) => Some r
      end
  end.

(** The error conditions the schema's constraints can raise. *)
Inductive sqlstate :=
| unique_violation
| not_null_violation
| foreign_key_violation.

(** Outcome of a statement or of a function body without an [EXCEPTION]
    block: a value, or an error that propagates to the caller. *)
Inductive outcome (A : Type) :=
| Ok (a : A)
| Raise (e : sqlstate).
Arguments Ok {A} a.
Arguments Raise {A} e.

Definition obind {A B} (m : outcome A) (k : A -> outcome B) : outcome B :=
  match m with
  | Ok a => k a
  | Raise e => Raise e
  end.

#[global] Instance outcome_ret : MRet outcome := fun _ a => Ok a.
#[global] Instance outcome_bind : MBind outcome := fun _ _ k m => obind m k.

End Sql.
Export Sql.

(* ===================================================================== *)
(** ** The schema: [auth.users], [public.profiles], [public.audit_logs] *)
(* ===================================================================== *)

Module Schema.

(** The columns of [auth.users] the template reads. *)
Record auth_user := {
  au_id : uuid;
  au_email : option text;
  au_raw_user_meta_data : option jsonb
}.

(** [public.profiles]; [user_id] is the primary key and references
    [auth.users(id)]. *)
Record profile := {
  user_id : uuid;
  email : option text;
  full_name : option text;
  avatar_url : option text;
  created_at : timestamptz;
  updated_at : timestamptz
}.

(** [public.audit_logs]; [al_id] is the primary key, [al_user_id]
    references [auth.users(id)], [al_action] is [NOT NULL]. *)
Record audit_log := {
  al_id : uuid;
  al_user_id : option uuid;
  al_action : text;
  al_table_name : option text;
  al_record_id : option text;
  al_old_values : option jsonb;
  al_new_values : option jsonb;
  al_ip_address : option text;
  al_user_agent : option text;
  al_created_at : timestamptz
}.

Record database := {
  auth_users : list auth_user;
  profiles : list profile;
  audit_logs : list audit_log
}.

Definition with_profiles (db : database) (ps : list profile) : database :=
  {| auth_users := auth_users db; profiles := ps; audit_logs := audit_logs db |}.

Definition with_audit_logs (db : database) (ls : list audit_log) : database :=
  {| auth_users := auth_users db; profiles := profiles db; audit_logs := ls |}.

(** [WHERE user_id = u] on a profile row. *)
Definition profile_matches (u : option uuid) (p : profile) : bool :=
  holds (sql_eq (Some (user_id p)) u).

(** [WHERE au.id = u] on an identity row. *)
Definition auth_user_matches (u : option uuid) (a : auth_user) : bool :=
  holds (sql_eq (Some (au_id a)) u).

Definition has_profile (u : uuid) (db : database) : bool :=
  existsb (profile_matches (Some u)) (profiles db).

Definition has_auth_user (u : uuid) (db : database) : bool :=
  existsb (auth_user_matches (Some u)) (auth_users db).

(** Number of profile rows of a subject. *)
Definition profile_count (u : uuid) (db : database) : nat :=
  length (filter (fun p => user_id p = u) (profiles db)).

(** A plain [INSERT INTO public.profiles]: the primary key and then the
    foreign key are enforced. *)
Definition insert_profile (p : profile) (db : database) : outcome database :=
  if has_profile (user_id p) db then Raise unique_violation
  else if negb (has_auth_user (user_id p) db) then Raise foreign_key_violation
  else Ok (with_profiles db (profiles db ++ [p])).

Fixpoint insert_profiles (rows : list profile) (db : database) : outcome database :=
  match rows with
  | [] => Ok db
  | r :: rows' => obind (insert_profile r db) (insert_profiles rows')
  end.

(** [INSERT ... ON CONFLICT (user_id) DO NOTHING]. *)
Definition insert_profile_on_conflict_do_nothing
    (p : profile) (db : database) : outcome database :=
  if has_profile (user_id p) db then Ok db else insert_profile p db.

End Schema.
Export Schema.

(* ===================================================================== *)
(** ** [database/auth-policies.sql] *)
(* ===================================================================== *)

Module Policies.

(** What the storage layer knows about the caller: [auth.uid()] and the
    verified token claims [auth.jwt()]. *)
Record auth_ctx := {
  auth_uid : option uuid;
  auth_jwt : option jsonb
}.

(** [COALESCE(auth.jwt() ->> 'role', '') = 'service_role']. *)
Definition service_role_expr (ctx : auth_ctx) : option bool :=
  sql_eq (COALESCE (get_text (auth_jwt ctx) "role") (Some "")) (Some "service_role").

(** [public.check_user_permission(resource_user_id, required_permission)]. *)
Definition check_user_permission (ctx : auth_ctx)
    (resource_user_id : option uuid) (required_permission : option text) : bool :=
  if is_null (auth_uid ctx) then false
  else if holds (sql_eq (auth_uid ctx) resource_user_id) then true
  else if holds (service_role_expr ctx) then true
  else false.

(** [required_permission TEXT DEFAULT 'read']. *)
Definition check_user_permission_default (ctx : auth_ctx)
    (resource_user_id : option uuid) : bool :=
  check_user_permission ctx resource_user_id (Some "read").

(** [public.get_current_user_id()]. *)
Definition get_current_user_id (ctx : auth_ctx) : option uuid := auth_uid ctx.

(** [public.is_admin()]. *)
Definition is_admin (ctx : auth_ctx) : bool :=
  if holds (service_role_expr ctx) then true else false.

(** The commands a row-level policy can be attached to. *)
Inductive command := SELECT | INSERT | UPDATE | DELETE.

#[global] Instance command_eq_dec : EqDecision command.
Proof. solve_decision. Defined.

(** A permissive policy on a table with rows of type [R]: its name, its
    command ([None] is [FOR ALL]) and its [USING] / [WITH CHECK]
    expression. *)
Record policy (R : Type) := {
  polname : string;
  polcmd : option command;
  polqual : auth_ctx -> R -> option bool
}.
Arguments polname {R} _.
Arguments polcmd {R} _.
Arguments polqual {R} _ _ _.

Definition read_own_profile : policy profile :=
  {| polname := "read_own_profile"; polcmd := Some SELECT;
     polqual := fun ctx row => sql_eq (auth_uid ctx) (Some (user_id row)) |}.

Definition update_own_profile : policy profile :=
  {| polname := "update_own_profile"; polcmd := Some UPDATE;
     polqual := fun ctx row => sql_eq (auth_uid ctx) (Some (user_id row)) |}.

Definition insert_own_profile : policy profile :=
  {| polname := "insert_own_profile"; polcmd := Some INSERT;
     polqual := fun ctx row => sql_eq (auth_uid ctx) (Some (user_id row)) |}.

Definition service_role_full_access_profiles : policy profile :=
  {| polname := "service_role_full_access_profiles"; polcmd := None;
     polqual := fun ctx _ => service_role_expr ctx |}.

Definition profiles_policies : list (policy profile) :=
  [ read_own_profile; update_own_profile; insert_own_profile;
    service_role_full_access_profiles ].

Definition read_own_audit_logs : policy audit_log :=
  {| polname := "read_own_audit_logs"; polcmd := Some SELECT;
     polqual := fun ctx row =>
       sql_or (sql_eq (auth_uid ctx) (al_user_id row)) (Some (is_admin ctx)) |}.

Definition service_role_full_access_audit_logs : policy audit_log :=
  {| polname := "service_role_full_access_audit_logs"; polcmd := None;
     polqual := fun ctx _ => service_role_expr ctx |}.

Definition audit_logs_policies : list (policy audit_log) :=
  [ read_own_audit_logs; service_role_full_access_audit_logs ].

Definition policy_applies {R} (cmd : command) (p : policy R) : bool :=
  match polcmd p with
  | None => true
  | Some c => bool_decide (c = cmd)
  end.

(** With row-level security enabled, a command reaches a row exactly when
    some permissive policy for that command passes on it. *)
Definition rls_permits {R} (policies : list (policy R))
    (ctx : auth_ctx) (cmd : command) (row : R) : bool :=
  existsb (fun p => policy_applies cmd p && holds (polqual p ctx row)) policies.

(** [INSERT INTO public.audit_logs]: [action] is [NOT NULL], [id] is the
    primary key, [user_id] references [auth.users(id)] when it is not
    [NULL]. *)
Definition insert_audit_log (new_id : uuid) (actor : option uuid)
    (action : option text) (table_name record_id : option text)
    (old_values new_values : option jsonb) (now : timestamptz)
    (db : database) : outcome database :=
  match action with
  | None => Raise not_null_violation
  | Some a =>
      if existsb (fun l => bool_decide (al_id l = new_id)) (audit_logs db)
      then Raise unique_violation
      else if match actor with
              | None => false
              | Some u => negb (has_auth_user u db)
              end
      then Raise foreign_key_violation
      else Ok (with_audit_logs db (audit_logs db ++
                 [ {| al_id := new_id; al_user_id := actor; al_action := a;
                      al_table_name := table_name; al_record_id := record_id;
                      al_old_values := old_values; al_new_values := new_values;
                      al_ip_address := None; al_user_agent := None;
                      al_created_at := now |} ]))
  end.

(** [public.log_audit_event(p_action, p_table_name, p_record_id,
    p_old_values, p_new_values)].  [gen_random_uuid] is the value the
    column default [gen_random_uuid()] draws, [now] the value the
    [created_at] default [TIMEZONE('utc'::text, NOW())] stores.  The body is the single
    [INSERT]; it has no [EXCEPTION] block. *)
Definition log_audit_event (ctx : auth_ctx) (gen_random_uuid : uuid)
    (now : timestamptz) (p_action : option text)
    (p_table_name p_record_id : option text)
    (p_old_values p_new_values : option jsonb)
    (db : database) : outcome database :=
  insert_audit_log gen_random_uuid (auth_uid ctx) p_action p_table_name
    p_record_id p_old_values p_new_values now db.

End Policies.
Export Policies.

(* ===================================================================== *)
(** ** [database/auth-schema.sql] *)
(* ===================================================================== *)

Module Procedures.

(** Throughout, the parameter [now] of a procedure or trigger is the value
    that its [TIMEZONE('utc'::text, NOW())] expressions and column defaults
    store in a [timestamptz] column during the call. *)

(** The document built by [jsonb_build_object('success', ..., 'code', ...,
    'message', ..., 'profile', row_to_json(...))]. *)
Record ProcedureResult := {
  success : bool;
  code : string;
  message : string;
  result_profile : option profile
}.

Definition USER_NOT_FOUND : ProcedureResult :=
  {| success := false; code := "USER_NOT_FOUND";
     message := "User not found in auth.users"; result_profile := None |}.

Definition CREATED (p : profile) : ProcedureResult :=
  {| success := true; code := "CREATED";
     message := "Profile created successfully"; result_profile := Some p |}.

Definition FOUND (p : profile) : ProcedureResult :=
  {| success := true; code := "FOUND";
     message := "Profile found"; result_profile := Some p |}.

Definition NOT_FOUND : ProcedureResult :=
  {| success := false; code := "NOT_FOUND";
     message := "User profile not found"; result_profile := None |}.

Definition UPDATED (p : profile) : ProcedureResult :=
  {| success := true; code := "UPDATED";
     message := "Profile updated successfully"; result_profile := Some p |}.

(** *** [get_or_create_profile] *)

(** [SELECT * INTO profile_record FROM public.profiles
     WHERE user_id = user_uuid]. *)
Definition goc_select (user_uuid : option uuid) (db : database) : option profile :=
  List.find (profile_matches user_uuid) (profiles db).

(** The row the [INSERT ... SELECT] builds from an identity record. *)
Definition goc_new_row (now : timestamptz) (user_uuid : uuid) (au : auth_user) : profile :=
  {| user_id := user_uuid;
     email := COALESCE (au_email au) (Some "");
     full_name := COALESCE (get_text (au_raw_user_meta_data au) "full_name") (Some "");
     avatar_url := COALESCE (get_text (au_raw_user_meta_data au) "avatar_url") (Some "");
     created_at := now;
     updated_at := now |}.

Definition goc_new_rows (now : timestamptz) (user_uuid : option uuid)
    (db : database) : list profile :=
  match user_uuid with
  | None => []
  | Some u =>
      List.map (goc_new_row now u)
        (List.filter (auth_user_matches user_uuid) (auth_users db))
  end.

(** The [INSERT ... SELECT ... FROM auth.users au WHERE au.id = user_uuid
    RETURNING * INTO profile_record] and the two [RETURN]s that follow it.
    The insert is a plain one: a key that is already present raises. *)
Definition goc_insert (now : timestamptz) (user_uuid : option uuid)
    (db : database) : outcome (ProcedureResult * database) :=
  let rows := goc_new_rows now user_uuid db in
  db' ← insert_profiles rows db;
  match rows with
  | [] => Ok (USER_NOT_FOUND, db')
  | r :: _ => Ok (CREATED r, db')
  end.

(** [public.get_or_create_profile(user_uuid)], run without interference. *)
Definition get_or_create_profile (now : timestamptz) (user_uuid : option uuid)
    (db : database) : outcome (ProcedureResult * database) :=
  match goc_select user_uuid db with
  | Some p => Ok (FOUND p, db)
  | None => goc_insert now user_uuid db
  end.

(** Two callers running [get_or_create_profile] at once.  Each call is a
    sequence of two statements, the [SELECT] and the [INSERT]; a statement
    is atomic and sees what earlier statements of either caller wrote. *)
Inductive goc_pc :=
| AtSelect
| AtInsert
| Returned (r : outcome ProcedureResult).

Definition goc_step (now : timestamptz) (user_uuid : option uuid)
    (pc : goc_pc) (db : database) : goc_pc * database :=
  match pc with
  | AtSelect =>
      match goc_select user_uuid db with
      | Some p => (Returned (Ok (FOUND p)), db)
      | None => (AtInsert, db)
      end
  | AtInsert =>
      match goc_insert now user_uuid db with
      | Ok (r, db') => (Returned (Ok r), db')
      | Raise e => (Returned (Raise e), db)
      end
  | Returned r => (Returned r, db)
  end.

Inductive caller := CallerA | CallerB.

Record goc_race := {
  pcA : goc_pc;
  pcB : goc_pc;
  shared : database
}.

Definition goc_race_init (db : database) : goc_race :=
  {| pcA := AtSelect; pcB := AtSelect; shared := db |}.

Definition goc_race_step (nowA nowB : timestamptz) (user_uuid : option uuid)
    (st : goc_race) (who : caller) : goc_race :=
  match who with
  | CallerA =>
      let '(pc, db) := goc_step nowA user_uuid (pcA st) (shared st) in
      {| pcA := pc; pcB := pcB st; shared := db |}
  | CallerB =>
      let '(pc, db) := goc_step nowB user_uuid (pcB st) (shared st) in
      {| pcA := pcA st; pcB := pc; shared := db |}
  end.

Definition goc_race_run (nowA nowB : timestamptz) (user_uuid : option uuid)
    (schedule : list caller) (db : database) : goc_race :=
  fold_left (goc_race_step nowA nowB user_uuid) schedule (goc_race_init db).

(** *** [update_user_profile] and the [updated_at] trigger *)

(** [public.handle_updated_at()], the [BEFORE UPDATE] row trigger of
    [public.profiles]. *)
Definition handle_updated_at (now : timestamptz) (NEW : profile) : profile :=
  {| user_id := user_id NEW; email := email NEW; full_name := full_name NEW;
     avatar_url := avatar_url NEW; created_at := created_at NEW;
     updated_at := now |}.

(** The [SET] list of [update_user_profile] applied to one row, followed by
    the row trigger. *)
Definition update_user_profile_row (now : timestamptz)
    (profile_data : option jsonb) (old : profile) : profile :=
  handle_updated_at now
    {| user_id := user_id old;
       email := COALESCE (get_text profile_data "email") (email old);
       full_name := COALESCE (get_text profile_data "full_name") (full_name old);
       avatar_url := COALESCE (get_text profile_data "avatar_url") (avatar_url old);
       created_at := created_at old;
       updated_at := now |}.

(** [UPDATE ... WHERE user_id = u] with a per-row assignment. *)
Definition update_where (u : option uuid) (f : profile -> profile)
    (ps : list profile) : list profile :=
  List.map (fun p => if profile_matches u p then f p else p) ps.

(** [public.update_user_profile(user_uuid, profile_data)]. *)
Definition update_user_profile (now : timestamptz) (user_uuid : option uuid)
    (profile_data : option jsonb) (db : database) : ProcedureResult * database :=
  let ps := update_where user_uuid (update_user_profile_row now profile_data)
              (profiles db) in
  match List.find (profile_matches user_uuid) ps with
  | None => (NOT_FOUND, db)
  | Some updated_profile => (UPDATED updated_profile, with_profiles db ps)
  end.

(** *** [sync_profile_from_auth_users] *)

Inductive tg_op := TG_INSERT | TG_UPDATE | TG_DELETE.

(** The [SET] list of the [UPDATE] branch applied to one row, followed by
    the row trigger of [public.profiles]. *)
Definition sync_row (now : timestamptz) (NEW : auth_user) (old : profile) : profile :=
  handle_updated_at now
    {| user_id := user_id old;
       email := au_email NEW;
       full_name := COALESCE (get_text (au_raw_user_meta_data NEW) "full_name")
                             (full_name old);
       avatar_url := COALESCE (get_text (au_raw_user_meta_data NEW) "avatar_url")
                              (avatar_url old);
       created_at := created_at old;
       updated_at := now |}.

(** [public.sync_profile_from_auth_users()], the [AFTER INSERT OR UPDATE]
    row trigger of [auth.users]; the value is the row it returns. *)
Definition sync_profile_from_auth_users (now : timestamptz) (op : tg_op)
    (NEW : auth_user) (db : database) : outcome (option auth_user * database) :=
  match op with
  | TG_INSERT =>
      db' ← insert_profile_on_conflict_do_nothing
              {| user_id := au_id NEW;
                 email := au_email NEW;
                 full_name := COALESCE (get_text (au_raw_user_meta_data NEW) "full_name")
                                       (Some "");
                 avatar_url := COALESCE (get_text (au_raw_user_meta_data NEW) "avatar_url")
                                        (Some "");
                 created_at := now;
                 updated_at := now |} db;
      Ok (Some NEW, db')
  | TG_UPDATE =>
      Ok (Some NEW,
          with_profiles db
            (update_where (Some (au_id NEW)) (sync_row now NEW) (profiles db)))
  | TG_DELETE => Ok (None, db)
  end.

End Procedures.
Export Procedures.

(* ===================================================================== *)
(** ** JavaScript completions, exceptions and mutable state *)
(* ===================================================================== *)

Module Js.

(** A thrown value; the code only ever reads its [message]. *)
Record js_error := { error_message : string }.

Definition Error (msg : string) : js_error := {| error_message := msg |}.

(** How an expression or an awaited call completes. *)
Inductive completion (A : Type) :=
| Normal (a : A)
| Throw (e : js_error).
Arguments Normal {A} a.
Arguments Throw {A} e.

(** A computation over a mutable world [W]. *)
Definition js (W A : Type) : Type := W -> completion A * W.

Definition js_ret {W A} (a : A) : js W A := fun w => (Normal a, w).

Definition js_bind {W A B} (m : js W A) (k : A -> js W B) : js W B :=
  fun w =>
    match m w with
    | (Normal a, w') => k a w'
    | (Throw e, w') => (Throw e, w')
    end.

#[global] Instance js_mret {W} : MRet (js W) := fun _ a => js_ret a.
#[global] Instance js_mbind {W} : MBind (js W) := fun _ _ k m => js_bind m k.

Definition throw {W A} (e : js_error) : js W A := fun w => (Throw e, w).

(** The completion of a call into the environment. *)
Definition await {W A} (c : completion A) : js W A := fun w => (c, w).

Definition modify {W} (f : W -> W) : js W unit := fun w => (Normal tt, f w).

Definition read {W A} (f : W -> A) : js W A := fun w => (Normal (f w), w).

(** [try { body } catch (e) { handler e }]. *)
Definition try_catch {W A} (body : js W A) (handler : js_error -> js W A) : js W A :=
  fun w =>
    match body w with
    | (Normal a, w') => (Normal a, w')
    | (Throw e, w') => handler e w'
    end.

(** [try { body } catch (e) { handler e } finally { fin }]: [fin] runs
    whichever way the first two complete, and their completion stands
    unless [fin] itself throws. *)
Definition try_catch_finally {W A} (body : js W A) (handler : js_error -> js W A)
    (fin : js W unit) : js W A :=
  fun w =>
    let '(r, w1) := try_catch body handler w in
    match fin w1 with
    | (Normal _, w2) => (r, w2)
    | (Throw e, w2) => (Throw e, w2)
    end.

(** Truthiness of a string and of a nullable string. *)
Definition truthy (s : string) : bool := negb (bool_decide (s = "")).

Definition truthy_opt (s : option string) : bool :=
  match s with Some v => truthy v | None => false end.

(** [a || b] on nullable strings. *)
Definition or_else (a b : option string) : option string :=
  if truthy_opt a then a else b.

(** [s || d] with a string default. *)
Definition or_default (s : option string) (d : string) : string :=
  match s with
  | Some v => if truthy v then v else d
  | None => d
  end.

(** A provider session and the [{ data: { session }, error }] answer. *)
Record Session := {
  access_token : string;
  session_user_id : string
}.

Record SessionResponse := {
  data_session : option Session;
  session_error : option js_error
}.

End Js.
Export Js.

(* ===================================================================== *)
(** ** [server/server-auth.ts] *)
(* ===================================================================== *)

Module ServerAuth.

(** The provider's user record. *)
Record User := {
  id : string;
  user_email : option string;
  user_metadata : option jsonb
}.

Record UserResponse := {
  data_user : option User;
  user_error : option js_error
}.

(** [AuthSession] of [types/auth-types.ts]. *)
Record AuthSessionUser := {
  asu_id : string;
  asu_email : option string;
  asu_user_metadata : jsonb
}.

Record AuthSession := {
  session_user : AuthSessionUser;
  session_access_token : string
}.

(** [UserProfile] as [authenticateUser] builds it: the stored row with
    [email], [full_name] and [avatar_url] replaced from the session. *)
Record UserProfile := {
  up_user_id : string;
  up_email : option string;
  up_full_name : option json;
  up_avatar_url : option json;
  up_created_at : timestamptz;
  up_updated_at : timestamptz
}.

Record PermissionCheck := {
  authorized : bool;
  permitted_user : option UserProfile
}.

(** What one request meets outside the module: whether the server client
    can be built, the provider's answers to [auth.getUser()] and
    [auth.getSession()], a transport failure of the remote procedure call
    (if any) and the value [TIMEZONE('utc'::text, NOW())] stores when the
    procedure runs. *)
Record server_env := {
  createServerSupabase : completion unit;
  auth_getUser : completion UserResponse;
  auth_getSession : completion SessionResponse;
  rpc_fault : option js_error;
  rpc_now : timestamptz
}.

Definition getServerSession_try (env : server_env) : js database (option AuthSession) :=
  _ ← await (createServerSupabase env);
  r ← await (auth_getUser env);
  match user_error r, data_user r with
  | Some _, _ | _, None => mret None
  | None, Some user =>
      s ← await (auth_getSession env);
      mret (Some
        {| session_user :=
             {| asu_id := id user;
                asu_email := user_email user;
                asu_user_metadata := default ∅ (user_metadata user) |};
           session_access_token :=
             or_default (access_token <$> data_session s) "" |})
  end.

(** [getServerSession()]. *)
Definition getServerSession (env : server_env) : js database (option AuthSession) :=
  try_catch (getServerSession_try env) (fun _ => mret None).

Record RpcResponse := {
  rpc_data : option ProcedureResult;
  rpc_error : option js_error
}.

Definition sqlstate_message (e : sqlstate) : string :=
  match e with
  | unique_violation => "duplicate key value violates unique constraint"
  | not_null_violation => "null value violates not-null constraint"
  | foreign_key_violation => "insert or update violates foreign key constraint"
  end.

(** [supabase.rpc('get_or_create_profile', { user_uuid })]: the stored
    procedure runs in the database; an exception it raises, like a
    transport failure, comes back as [error]. *)
Definition rpc_get_or_create_profile (env : server_env) (user_uuid : string)
    : js database RpcResponse :=
  fun db =>
    match rpc_fault env with
    | Some e => (Normal {| rpc_data := None; rpc_error := Some e |}, db)
    | None =>
        match get_or_create_profile (rpc_now env) (Some user_uuid) db with
        | Ok (r, db') => (Normal {| rpc_data := Some r; rpc_error := None |}, db')
        | Raise e =>
            (Normal {| rpc_data := None;
                       rpc_error := Some (Error (sqlstate_message e)) |}, db)
        end
    end.

Definition authenticateUser_try (env : server_env) : js database (option UserProfile) :=
  session ← getServerSession env;
  match session with
  | None => mret None
  | Some session =>
      if negb (truthy (asu_id (session_user session))) then mret None
      else
        _ ← await (createServerSupabase env);
        resp ← rpc_get_or_create_profile env (asu_id (session_user session));
        match rpc_error resp, rpc_data resp with
        | Some _, _ => mret None
        | None, None => mret None
        | None, Some profileResult =>
            if negb (success profileResult) then mret None
            else
              match result_profile profileResult with
              | None => mret None
              | Some profile =>
                  mret (Some
                    {| up_user_id := user_id profile;
                       up_email := asu_email (session_user session);
                       up_full_name :=
                         asu_user_metadata (session_user session) !! "full_name";
                       up_avatar_url :=
                         asu_user_metadata (session_user session) !! "avatar_url";
                       up_created_at := created_at profile;
                       up_updated_at := updated_at profile |})
              end
        end
  end.

(** [authenticateUser()]. *)
Definition authenticateUser (env : server_env) : js database (option UserProfile) :=
  try_catch (authenticateUser_try env) (fun _ => mret None).

(** [getCurrentUserId()]. *)
Definition getCurrentUserId (env : server_env) : js database (option string) :=
  session ← getServerSession env;
  mret (match session with
        | Some s => if truthy (asu_id (session_user s))
                    then Some (asu_id (session_user s)) else None
        | None => None
        end).

Definition checkUserPermission_try (env : server_env) (userId : string)
    (permission : option string) : js database PermissionCheck :=
  user ← authenticateUser env;
  match user with
  | None => mret {| authorized := false; permitted_user := None |}
  | Some u =>
      if negb (bool_decide (up_user_id u = userId))
      then mret {| authorized := false; permitted_user := None |}
      else mret {| authorized := true; permitted_user := Some u |}
  end.

(** [checkUserPermission(userId, permission?)]. *)
Definition checkUserPermission (env : server_env) (userId : string)
    (permission : option string) : js database PermissionCheck :=
  try_catch (checkUserPermission_try env userId permission)
    (fun _ => mret {| authorized := false; permitted_user := None |}).

End ServerAuth.
Export ServerAuth.

(* ===================================================================== *)
(** ** [client/auth-callback.tsx] *)
(* ===================================================================== *)

Module AuthCallback.

(** A parsed URL: its path, its decoded query parameters in order, and its
    fragment. *)
Record URL := {
  pathname : string;
  searchParams : list (string * string);
  hash : string
}.

(** [url.searchParams.get(name)]: the first value of [name], or [null]. *)
Fixpoint searchParams_get (name : string) (ps : list (string * string)) : option string :=
  match ps with
  | [] => None
  | (k, v) :: ps' => if bool_decide (k = name) then Some v else searchParams_get name ps'
  end.

Definition get (url : URL) (name : string) : option string :=
  searchParams_get name (searchParams url).

(** The component's [status] state: ["loading"], ["success"] or ["error"]. *)
Inductive Status := st_loading | st_success | st_error.

#[global] Instance Status_eq_dec : EqDecision Status.
Proof. solve_decision. Defined.

Inductive provider_call :=
| ExchangeCodeForSession (url : URL)
| GetSession.

(** The page: the visible URL, the component state, the pending timers
    (delay and destination of the [router.push] they will run), the
    navigations actually performed, and the requests sent to the provider
    so far. *)
Record browser := {
  location : URL;
  status : Status;
  message : string;
  timers : list (Z * string);
  navigations : list string;
  provider_calls : list provider_call
}.

Record AuthCallbackProps := {
  successRedirect : string;
  errorRedirect : string;
  successDelay : Z;
  errorDelay : Z
}.

Definition default_props : AuthCallbackProps :=
  {| successRedirect := "/"; errorRedirect := "/login";
     successDelay := 1500; errorDelay := 3000 |}.

(** What one landing meets outside the component. *)
Record callback_env := {
  decodeURIComponent : string -> completion string;
  createClient : completion unit;
  exchangeCodeForSession : URL -> completion SessionResponse;
  getSession : completion SessionResponse
}.

Definition initial (url : URL) : browser :=
  {| location := url; status := st_loading; message := "正在处理认证...";
     timers := []; navigations := []; provider_calls := [] |}.

Definition setStatus (s : Status) : js browser unit :=
  modify (fun b =>
    {| location := location b; status := s; message := message b;
       timers := timers b; navigations := navigations b;
       provider_calls := provider_calls b |}).

Definition setMessage (m : string) : js browser unit :=
  modify (fun b =>
    {| location := location b; status := status b; message := m;
       timers := timers b; navigations := navigations b;
       provider_calls := provider_calls b |}).

(** [setTimeout(() => router.push(dest), delay)]. *)
Definition setTimeout_push (dest : string) (delay : Z) : js browser unit :=
  modify (fun b =>
    {| location := location b; status := status b; message := message b;
       timers := timers b ++ [(delay, dest)]; navigations := navigations b;
       provider_calls := provider_calls b |}).

(** [window.history.replaceState({}, document.title, path)]: the visible
    URL becomes the bare [path]; no page is loaded. *)
Definition replaceState (path : string) : js browser unit :=
  modify (fun b =>
    {| location := {| pathname := path; searchParams := []; hash := "" |};
       status := status b; message := message b;
       timers := timers b; navigations := navigations b;
       provider_calls := provider_calls b |}).

Definition call_provider {A} (c : provider_call) (answer : completion A) : js browser A :=
  _ ← modify (fun b =>
    {| location := location b; status := status b; message := message b;
       timers := timers b; navigations := navigations b;
       provider_calls := provider_calls b ++ [c] |});
  await answer.

Definition NO_SESSION_MESSAGE : string := "未获取到认证会话".
Definition GENERIC_FAILURE_MESSAGE : string := "认证失败，请重试".
Definition SUCCESS_MESSAGE : string := "认证成功！正在跳转...".

(** The part of the handler that computes the local [session]. *)
Definition obtain_session (env : callback_env) : js browser (option Session) :=
  currentUrl ← read location;
  let oauthError := or_else (get currentUrl "error_description") (get currentUrl "error") in
  _ ← (match oauthError with
       | Some e =>
           if truthy e
           then (msg ← await (decodeURIComponent env e); throw (Error msg))
           else mret tt
       | None => mret tt
       end);
  let hasCode := truthy_opt (get currentUrl "code") in
  _ ← await (createClient env);
  if hasCode then
    try_catch_finally
      (r ← call_provider (ExchangeCodeForSession currentUrl)
             (exchangeCodeForSession env currentUrl);
       match session_error r with
       | Some e => throw e
       | None => mret (data_session r)
       end)
      (fun e =>
         r ← call_provider GetSession (getSession env);
         mret (data_session r))
      (replaceState (pathname currentUrl))
  else
    r ← call_provider GetSession (getSession env);
    match session_error r with
    | Some e => throw e
    | None => mret (data_session r)
    end.

(** [handleAuthCallback()], and the local [session] it decided on. *)
Definition handleAuthCallback (props : AuthCallbackProps) (env : callback_env)
    : js browser (option Session) :=
  try_catch
    (session ← obtain_session env;
     match session with
     | Some s =>
         _ ← setStatus st_success;
         _ ← setMessage SUCCESS_MESSAGE;
         _ ← setTimeout_push (successRedirect props) (successDelay props);
         mret (Some s)
     | None => throw (Error NO_SESSION_MESSAGE)
     end)
    (fun e =>
       _ ← setStatus st_error;
       _ ← setMessage (or_default (Some (error_message e)) GENERIC_FAILURE_MESSAGE);
       _ ← setTimeout_push (errorRedirect props) (errorDelay props);
       mret None).

(** The page after the handler has run on a landing URL. *)
Definition land (props : AuthCallbackProps) (env : callback_env) (url : URL) : browser :=
  snd (handleAuthCallback props env (initial url)).

Definition session_of (props : AuthCallbackProps) (env : callback_env) (url : URL)
    : completion (option Session) :=
  fst (handleAuthCallback props env (initial url)).

Definition terminal (b : browser) : bool :=
  bool_decide (status b = st_success) || bool_decide (status b = st_error).

(** The three transient parameters of the redirect contract. *)
Definition transient_params : list string := ["code"; "error"; "error_description"].

Definition carries (url : URL) (name : string) : bool :=
  existsb (fun kv => bool_decide (kv.1 = name)) (searchParams url).

Definition stripped (url : URL) : bool :=
  forallb (fun name => negb (carries url name)) transient_params.

End AuthCallback.
Export AuthCallback.

(* ===================================================================== *)
(** ** Vocabulary of the specification *)
(* ===================================================================== *)

Module Spec.

(** The subject carries the elevated (service) role: the verified token has
    a [role] claim and it reads [service_role]. *)
Definition elevated (ctx : auth_ctx) : bool :=
  bool_decide (get_text (auth_jwt ctx) "role" = Some "service_role").

(** The rule table of the evaluator, in the order the specification lists
    it: no subject, deny; subject is the owner, allow; elevated role, allow;
    otherwise deny.  [true] is allow. *)
Definition rule_table (subject resource_owner : option uuid) (is_elevated : bool) : bool :=
  match subject with
  | None => false
  | Some s =>
      if bool_decide (resource_owner = Some s) then true
      else if is_elevated then true
      else false
  end.

(** The decision of the application-level check on a store [db]. *)
Definition app_decision (env : server_env) (db : database)
    (resource_owner : string) (permission : option string) : bool :=
  match fst (checkUserPermission env resource_owner permission db) with
  | Normal r => authorized r
  | Throw _ => false
  end.

(** Identity verification succeeds for [u]: the server client is built and
    the provider answers [getUser] with [u] and no error. *)
Definition verified (env : server_env) (u : User) : Prop :=
  (exists c, createServerSupabase env = Normal c) /\
  auth_getUser env = Normal {| data_user := Some u; user_error := None |}.

(** Identity verification fails: one of the two steps throws, or the
    provider answers with an error or without a user. *)
Definition verification_fails (env : server_env) : Prop :=
  match createServerSupabase env, auth_getUser env with
  | Throw _, _ | _, Throw _ => True
  | Normal _, Normal r => is_Some (user_error r) \/ data_user r = None
  end.

(** The application-level request is made by [subject], and nothing else
    goes wrong on the way to the decision: the secondary session fetch
    returns, the remote procedure call is delivered, and the identity record
    of the subject is in [auth.users], whose identifiers are distinct. *)
Definition presents (env : server_env) (db : database) (subject : option uuid) : Prop :=
  match subject with
  | None => verification_fails env
  | Some s =>
      s <> "" /\
      (exists u, verified env u /\ id u = s) /\
      (exists r, auth_getSession env = Normal r) /\
      rpc_fault env = None /\
      has_auth_user s db = true /\
      NoDup (List.map au_id (auth_users db))
  end.

(** The code exchange fails: the call throws, or it answers with an
    error. *)
Definition exchange_fails (env : callback_env) (url : URL) : Prop :=
  match exchangeCodeForSession env url with
  | Throw _ => True
  | Normal r => is_Some (session_error r)
  end.

(** The landing URL carries an OAuth error: [error_description] or [error]
    has a non-empty value. *)
Definition has_oauth_error (url : URL) : bool :=
  truthy_opt (or_else (get url "error_description") (get url "error")).

Definition has_code (url : URL) : bool := truthy_opt (get url "code").

(** The reconciler gets as far as the code exchange: no OAuth error, a
    code, and a provider client to send it with. *)
Definition exchange_attempted (env : callback_env) (url : URL) : bool :=
  negb (has_oauth_error url) && has_code url
  && match createClient env with Normal _ => true | Throw _ => false end.

(** The URL reduced to its path. *)
Definition bare (url : URL) : URL :=
  {| pathname := pathname url; searchParams := []; hash := "" |}.

(** What a passive sync or an update leaves in a text column: the incoming
    value when there is one, the stored value otherwise. *)
Definition merged (incoming stored : option text) : option text :=
  match incoming with
  | Some v => Some v
  | None => stored
  end.

(** A profile row after an explicit update with [profile_data]. *)
Definition patched (now : timestamptz) (profile_data : option jsonb)
    (p : profile) : profile :=
  {| user_id := user_id p;
     email := merged (get_text profile_data "email") (email p);
     full_name := merged (get_text profile_data "full_name") (full_name p);
     avatar_url := merged (get_text profile_data "avatar_url") (avatar_url p);
     created_at := created_at p;
     updated_at := now |}.

(** A profile row after a passive sync from the identity record [NEW]. *)
Definition synced (now : timestamptz) (NEW : auth_user) (p : profile) : profile :=
  {| user_id := user_id p;
     email := au_email NEW;
     full_name := merged (get_text (au_raw_user_meta_data NEW) "full_name") (full_name p);
     avatar_url := merged (get_text (au_raw_user_meta_data NEW) "avatar_url") (avatar_url p);
     created_at := created_at p;
     updated_at := now |}.

(** Apply [f] to the rows of subject [u] and leave the others alone. *)
Definition on_rows_of (u : uuid) (f : profile -> profile) (ps : list profile)
    : list profile :=
  (fun p => if bool_decide (user_id p = u) then f p else p) <$> ps.

(** The storage insert of an audit row is admissible: an action is given,
    the drawn identifier is fresh, and the actor, when there is one, has an
    identity record. *)
Definition audit_admissible (ctx : auth_ctx) (new_id : uuid)
    (p_action : option text) (db : database) : bool :=
  bool_decide (is_Some p_action)
  && negb (existsb (fun l => bool_decide (al_id l = new_id)) (audit_logs db))
  && match auth_uid ctx with
     | None => true
     | Some u => has_auth_user u db
     end.

End Spec.
Export Spec.

(* ===================================================================== *)
(** ** Concrete stores, callers and landings *)
(* ===================================================================== *)

Module Examples.

(** Two registered identities, no profile yet.  The short identifiers [u1],
    [u2], [u9], [a1] stand for printed uuids. *)
Definition alice : auth_user :=
  {| au_id := "u1"; au_email := Some "alice@example.com";
     au_raw_user_meta_data := Some {[ "full_name" := JString "Alice" ]} |}.

Definition bob : auth_user :=
  {| au_id := "u2"; au_email := Some "bob@example.com";
     au_raw_user_meta_data := None |}.

Definition db_identities : database :=
  {| auth_users := [alice; bob]; profiles := []; audit_logs := [] |}.

Definition alice_profile : profile :=
  {| user_id := "u1"; email := Some "alice@example.com";
     full_name := Some "Alice"; avatar_url := Some "";
     created_at := 100; updated_at := 100 |}.

Definition bob_profile : profile :=
  {| user_id := "u2"; email := Some "bob@example.com";
     full_name := Some ""; avatar_url := Some "";
     created_at := 50; updated_at := 60 |}.

Definition db_profiles : database :=
  {| auth_users := [alice; bob]; profiles := [alice_profile; bob_profile];
     audit_logs := [] |}.

(** A request whose verified subject is [u1]; nothing fails on the way. *)
Definition env_u1 : server_env :=
  {| createServerSupabase := Normal tt;
     auth_getUser :=
       Normal {| data_user := Some {| id := "u1";
                                      user_email := Some "alice@example.com";
                                      user_metadata := None |};
                 user_error := None |};
     auth_getSession :=
       Normal {| data_session := Some {| access_token := "tok";
                                         session_user_id := "u1" |};
                 session_error := None |};
     rpc_fault := None;
     rpc_now := 200 |}.

(** The same request when the secondary session fetch throws. *)
Definition env_u1_session_throws : server_env :=
  {| createServerSupabase := Normal tt;
     auth_getUser := auth_getUser env_u1;
     auth_getSession := Throw (Error "fetch failed");
     rpc_fault := None;
     rpc_now := 200 |}.

(** The same request when the secondary session fetch answers with an
    error and no session. *)
Definition env_u1_session_error : server_env :=
  {| createServerSupabase := Normal tt;
     auth_getUser := auth_getUser env_u1;
     auth_getSession :=
       Normal {| data_session := None;
                 session_error := Some (Error "session missing") |};
     rpc_fault := None;
     rpc_now := 200 |}.

(** An ordinary authenticated caller [u1]. *)
Definition ctx_u1 : auth_ctx :=
  {| auth_uid := Some "u1";
     auth_jwt := Some {[ "role" := JString "authenticated" ]} |}.

(** A caller [u1] whose token carries the service role. *)
Definition ctx_u1_service : auth_ctx :=
  {| auth_uid := Some "u1";
     auth_jwt := Some {[ "role" := JString "service_role" ]} |}.

(** The service key itself: the service role and no subject. *)
Definition ctx_service_key : auth_ctx :=
  {| auth_uid := None;
     auth_jwt := Some {[ "role" := JString "service_role" ]} |}.


(** The landing of a refused consent. *)
Definition url_denied : URL :=
  {| pathname := "/auth/callback";
     searchParams := [("error", "access_denied"); ("error_description", "User denied")];
     hash := "" |}.

(** The landing of a granted consent. *)
Definition url_code : URL :=
  {| pathname := "/auth/callback";
     searchParams := [("code", "abc123")];
     hash := "" |}.

Definition established : Session :=
  {| access_token := "tok"; session_user_id := "u1" |}.

(** A replayed landing: the code is already consumed, so the exchange
    answers with an error, and the session of the first landing is still
    there. *)
Definition env_replayed : callback_env :=
  {| decodeURIComponent := fun s => Normal s;
     createClient := Normal tt;
     exchangeCodeForSession := fun _ =>
       Normal {| data_session := None;
                 session_error := Some (Error "invalid flow state") |};
     getSession :=
       Normal {| data_session := Some established; session_error := None |} |}.

(** The exchange throws and no session is established. *)
Definition env_no_session : callback_env :=
  {| decodeURIComponent := fun s => Normal s;
     createClient := Normal tt;
     exchangeCodeForSession := fun _ => Throw (Error "code verifier missing");
     getSession := Normal {| data_session := None; session_error := None |} |}.


(** An upstream change of [u1]: a new e-mail address and an empty display
    name. *)
Definition alice_blank_name : auth_user :=
  {| au_id := "u1"; au_email := Some "alice@new.example";
     au_raw_user_meta_data := Some {[ "full_name" := JString "" ]} |}.

(** An upstream change of [u1] that does not mention the display name. *)
Definition alice_new_email : auth_user :=
  {| au_id := "u1"; au_email := Some "alice@new.example";
     au_raw_user_meta_data := Some ∅ |}.

(** A caller whose identity record is gone. *)
Definition ctx_deleted_user : auth_ctx :=
  {| auth_uid := Some "u9";
     auth_jwt := Some {[ "role" := JString "authenticated" ]} |}.

End Examples.
Export Examples.

(* ===================================================================== *)
(** ** The rest of [database/auth-schema.sql] and of [server/server-auth.ts] *)
(* ===================================================================== *)

Module SchemaTests.

(** [DELETE FROM public.profiles WHERE user_id = u]. *)
Definition delete_profiles_where (u : option uuid) (db : database) : database :=
  with_profiles db (List.filter (fun p => negb (profile_matches u p)) (profiles db)).

(** The row of [INSERT INTO public.profiles (user_id, email, full_name)
    VALUES (test_user_id, 'test@example.com', 'Test User')]; the timestamps
    take their column defaults. *)
Definition test_profile (test_user_id : uuid) (now : timestamptz) : profile :=
  {| user_id := test_user_id; email := Some "test@example.com";
     full_name := Some "Test User"; avatar_url := None;
     created_at := now; updated_at := now |}.

Definition TEST_PASSED : text := "Auth setup test passed ✓".
Definition TEST_FAILED : text := "Auth setup test failed ✗: ".
Definition TEST_ERROR : text := "Auth setup test error: ".

(** [public.test_auth_setup()].  [test_user_id] is the value drawn by
    [gen_random_uuid()], [SQLERRM] the message text of an error condition.
    When a statement of the block raises, the block's writes are undone and
    the [EXCEPTION WHEN OTHERS] handler runs on the store as it was. *)
Definition test_auth_setup (test_user_id : uuid) (now : timestamptz)
    (SQLERRM : sqlstate -> text) (db : database) : text * database :=
  match
    (db1 ← insert_profile (test_profile test_user_id now) db;
     '(test_result, db2) ← get_or_create_profile now (Some test_user_id) db1;
     mret (test_result, delete_profiles_where (Some test_user_id) db2))
  with
  | Ok (test_result, db3) =>
      if success test_result then (TEST_PASSED, db3)
      else (TEST_FAILED +:+ Procedures.message test_result, db3)
  | Raise e =>
      (TEST_ERROR +:+ SQLERRM e, delete_profiles_where (Some test_user_id) db)
  end.

End SchemaTests.
Export SchemaTests.

Module ServerQueries.

(** [isAuthenticated()]. *)
Definition isAuthenticated (env : server_env) : js database bool :=
  userId ← getCurrentUserId env;
  mret (bool_decide (is_Some userId)).

(** The object [getUserBasicInfo] returns. *)
Record BasicInfo := {
  bi_id : string;
  bi_email : option text;
  bi_full_name : option text;
  bi_avatar_url : option text;
  bi_created_at : timestamptz;
  bi_updated_at : timestamptz
}.

(** [supabase.from('profiles').select(...).eq('user_id', userId).single()]
    sent with the caller's storage identity [ctx]: the rows are those the
    [SELECT] policies let through and the filter keeps; [single()] answers
    with the row when there is exactly one and with an error otherwise.
    [fault] is a transport failure of the request, if any. *)
Definition select_profile_single (ctx : auth_ctx) (fault : option js_error)
    (userId : string) (db : database) : option profile * option js_error :=
  match fault with
  | Some e => (None, Some e)
  | None =>
      match List.filter
              (fun p => rls_permits profiles_policies ctx SELECT p
                        && bool_decide (user_id p = userId)) (profiles db) with
      | [p] => (Some p, None)
      | _ => (None, Some (Error "JSON object requested, multiple (or no) rows returned"))
      end
  end.

Definition getUserBasicInfo_try (env : server_env) (ctx : auth_ctx)
    (fault : option js_error) (userId : string) : js database (option BasicInfo) :=
  _ ← await (createServerSupabase env);
  resp ← read (select_profile_single ctx fault userId);
  match resp with
  | (_, Some _) | (None, _) => mret None
  | (Some profile, None) =>
      mret (Some {| bi_id := user_id profile;
                    bi_email := email profile;
                    bi_full_name := full_name profile;
                    bi_avatar_url := avatar_url profile;
                    bi_created_at := created_at profile;
                    bi_updated_at := updated_at profile |})
  end.

(** [getUserBasicInfo(userId)]. *)
Definition getUserBasicInfo (env : server_env) (ctx : auth_ctx)
    (fault : option js_error) (userId : string) : js database (option BasicInfo) :=
  try_catch (getUserBasicInfo_try env ctx fault userId) (fun _ => mret None).

End ServerQueries.
Export ServerQueries.

(* ===================================================================== *)
(** ** [config/auth-config.ts], [client/auth-guard.tsx],
       [client/auth-context.tsx], [client/login-form.tsx] *)
(* ===================================================================== *)

Module AuthConfig.

(** [process.env]: the variables that are set, with their values. *)
Abbreviation process_env := (gmap string string).

Definition requiredVars : list string :=
  [ "NEXT_PUBLIC_SUPABASE_URL"; "NEXT_PUBLIC_SUPABASE_ANON_KEY";
    "SUPABASE_SERVICE_ROLE_KEY" ].

Record ConfigValidation := {
  valid : bool;
  missingVars : list string
}.

(** [validateAuthConfig()]. *)
Definition validateAuthConfig (penv : process_env) : ConfigValidation :=
  let missing :=
    List.filter (fun varName => negb (truthy_opt (penv !! varName))) requiredVars in
  {| valid := bool_decide (length missing = 0); missingVars := missing |}.

Record RedirectUrls := {
  url_callback : string;
  url_resetPassword : string
}.

Definition ROUTE_callback : string := "/auth/callback".
Definition ROUTE_resetPassword : string := "/auth/reset-password".

(** [getOAuthRedirectUrls()]; [window_origin] is [window.location.origin]
    where there is a [window]. *)
Definition getOAuthRedirectUrls (penv : process_env) (window_origin : option string)
    : RedirectUrls :=
  let baseUrl :=
    or_default (penv !! "NEXT_PUBLIC_SITE_URL")
      (match window_origin with
       | Some o => o
       | None => "http://localhost:3000"
       end) in
  {| url_callback := baseUrl +:+ ROUTE_callback;
     url_resetPassword := baseUrl +:+ ROUTE_resetPassword |}.

End AuthConfig.
Export AuthConfig.

Module AuthGuard.







End AuthGuard.
Export AuthGuard.

Module AuthContext.

(** The state of [AuthProvider]. *)
Record auth_state := {
  ctx_user : option User;
  ctx_session : option Session;
  ctx_loading : bool
}.

(** The provider's answers to the browser client. *)
Record auth_client := {
  client_getUser : completion UserResponse;
  client_getSession : completion SessionResponse
}.

Definition setUser (u : option User) : js auth_state unit :=
  modify (fun s => {| ctx_user := u; ctx_session := ctx_session s;
                      ctx_loading := ctx_loading s |}).

Definition setSession (x : option Session) : js auth_state unit :=
  modify (fun s => {| ctx_user := ctx_user s; ctx_session := x;
                      ctx_loading := ctx_loading s |}).

Definition setLoading (b : bool) : js auth_state unit :=
  modify (fun s => {| ctx_user := ctx_user s; ctx_session := ctx_session s;
                      ctx_loading := b |}).

(** [getInitialUser()] of [AuthProvider]. *)
Definition getInitialUser (c : auth_client) : js auth_state unit :=
  try_catch_finally
    (r ← await (client_getUser c);
     match user_error r with
     | Some _ =>
         _ ← setUser None;
         setSession None
     | None =>
         _ ← setUser (data_user r);
         s ← await (client_getSession c);
         setSession (data_session s)
     end)
    (fun _ =>
       _ ← setUser None;
       setSession None)
    (setLoading false).

Definition auth_state_initial : auth_state :=
  {| ctx_user := None; ctx_session := None; ctx_loading := true |}.

End AuthContext.
Export AuthContext.

Module LoginForm.

(** The state of [LoginForm] the handlers touch, and the [router.push]
    calls made. *)
Record form_state := {
  isLoading : bool;
  form_error : string;
  form_pushes : list string
}.

(** The answers of the context's [signIn], [signUp], [signInWithGoogle] and
    [signInWithGitHub]: the [error] of the returned object, or a throw. *)
Record auth_actions := {
  act_signIn : string -> string -> completion (option js_error);
  act_signUp : string -> string -> completion (option js_error);
  act_signInWithGoogle : completion (option js_error);
  act_signInWithGitHub : completion (option js_error)
}.

Definition setIsLoading (b : bool) : js form_state unit :=
  modify (fun s => {| isLoading := b; form_error := form_error s;
                      form_pushes := form_pushes s |}).

Definition setError (m : string) : js form_state unit :=
  modify (fun s => {| isLoading := isLoading s; form_error := m;
                      form_pushes := form_pushes s |}).

Definition router_push (dest : string) : js form_state unit :=
  modify (fun s => {| isLoading := isLoading s; form_error := form_error s;
                      form_pushes := (form_pushes s ++ [dest])%list |}).

(** [handleEmailAuth]. *)
Definition handleEmailAuth (acts : auth_actions) (isSignUp : bool)
    (email password redirectTo : string) : js form_state unit :=
  _ ← setIsLoading true;
  _ ← setError "";
  try_catch_finally
    (r ← await (if isSignUp then act_signUp acts email password
                else act_signIn acts email password);
     match r with
     | Some e => setError (error_message e)
     | None => router_push redirectTo
     end)
    (fun err => setError (or_default (Some (error_message err)) "操作失败"))
    (setIsLoading false).

(** [handleGoogleSignIn] and [handleGitHubSignIn], which differ in the action
    they start and in the text shown when it throws. *)
Definition handleOAuthSignIn (start : completion (option js_error))
    (failure_text : string) : js form_state unit :=
  _ ← setIsLoading true;
  _ ← setError "";
  try_catch
    (r ← await start;
     match r with
     | Some e =>
         _ ← setError (error_message e);
         setIsLoading false
     | None => mret tt
     end)
    (fun _ =>
       _ ← setError failure_text;
       setIsLoading false).

Definition handleGoogleSignIn (acts : auth_actions) : js form_state unit :=
  handleOAuthSignIn (act_signInWithGoogle acts) "Google登录失败".

Definition handleGitHubSignIn (acts : auth_actions) : js form_state unit :=
  handleOAuthSignIn (act_signInWithGitHub acts) "GitHub登录失败".

End LoginForm.
Export LoginForm.

Module Invariants.

(** The constraints of the schema hold in a store: identifiers of identity
    records are distinct, [user_id] is a key of [public.profiles], and every
    profile references an identity record. *)
Definition consistent (db : database) : Prop :=
  NoDup (List.map au_id (auth_users db)) /\
  NoDup (List.map user_id (profiles db)) /\
  Forall (fun p => has_auth_user (user_id p) db = true) (profiles db).

(** The row the [INSERT] branch of [sync_profile_from_auth_users] writes. *)
Definition sync_new_row (now : timestamptz) (NEW : auth_user) : profile :=
  {| user_id := au_id NEW;
     email := au_email NEW;
     full_name := COALESCE (get_text (au_raw_user_meta_data NEW) "full_name") (Some "");
     avatar_url := COALESCE (get_text (au_raw_user_meta_data NEW) "avatar_url") (Some "");
     created_at := now;
     updated_at := now |}.

(** The code exchange fails, as a test. *)
Definition exchange_failed (env : callback_env) (url : URL) : bool :=
  match exchangeCodeForSession env url with
  | Throw _ => true
  | Normal r => bool_decide (is_Some (session_error r))
  end.

(** The OAuth error text of a landing URL: [error_description] when it is
    not empty, [error] otherwise. *)
Definition oauth_error_text (url : URL) : option string :=
  or_else (get url "error_description") (get url "error").

(** The message shown for a caught error. *)
Definition shown_message (e : js_error) : string :=
  or_default (Some (error_message e)) GENERIC_FAILURE_MESSAGE.

(** A request to the provider is a code exchange. *)
Definition is_exchange (c : provider_call) : bool :=
  match c with
  | ExchangeCodeForSession _ => true
  | GetSession => false
  end.

End Invariants.
Export Invariants.

(* ===================================================================== *)
(** ** What PostgreSQL does with a uuid text and with the clock *)
(* ===================================================================== *)

Module Uuid.

(** A value of type [uuid] is written here by the text PostgreSQL prints for
    it (and puts into [row_to_json]): thirty-two lower-case hexadecimal
    digits in groups of 8, 4, 4, 4 and 12, separated by hyphens. *)

(** A hexadecimal digit, in lower case. *)
Definition hex_lower (c : Ascii.ascii) : option Ascii.ascii :=
  let n := Ascii.nat_of_ascii c in
  if ((48 <=? n) && (n <=? 57))%nat then Some c
  else if ((97 <=? n) && (n <=? 102))%nat then Some c
  else if ((65 <=? n) && (n <=? 70))%nat then Some (Ascii.ascii_of_nat (n + 32))
  else None.

Definition hyphen_position (pos : nat) : bool :=
  ((pos =? 8) || (pos =? 13) || (pos =? 18) || (pos =? 23))%nat.

Fixpoint uuid_chars (pos : nat) (cs : list Ascii.ascii) : option (list Ascii.ascii) :=
  match cs with
  | [] => if (pos =? 36)%nat then Some [] else None
  | c :: cs' =>
      if hyphen_position pos then
        if bool_decide (Ascii.nat_of_ascii c = 45) then cons c <$> uuid_chars (S pos) cs'
        else None
      else
        match hex_lower c with
        | Some h => cons h <$> uuid_chars (S pos) cs'
        | None => None
        end
  end.

(** Reading a text as a [uuid], as a [uuid] parameter or a cast does: the
    hyphenated form, with the letters in either case, denotes the value
    printed in lower case; any other text here is not a uuid.  (PostgreSQL
    also accepts braces and other hyphen placements; those spellings are left
    out.) *)
Definition uuid_in (s : string) : option uuid :=
  String.string_of_list_ascii <$> uuid_chars 0 (String.list_ascii_of_string s).

End Uuid.
Export Uuid.

Module Clock.

(** The clock of a call to the database: the transaction timestamp [NOW()],
    as seconds of universal time, and the offset of the session's time zone
    from universal time, in seconds (east is positive). *)
Record clock := {
  transaction_now : Z;
  session_utc_offset : Z
}.

(** [TIMEZONE('utc'::text, NOW())] assigned to a [timestamptz] column.  The
    function gives the wall-clock reading of [NOW()] in universal time, a
    timestamp without zone; the assignment reads that wall-clock value back
    as a local time of the session's zone. *)
Definition TIMEZONE_utc_NOW (c : clock) : timestamptz :=
  (transaction_now c - session_utc_offset c)%Z.

(** [update_user_profile] called under a clock. *)
Definition update_user_profile_at (c : clock) (user_uuid : option uuid)
    (profile_data : option jsonb) (db : database) : ProcedureResult * database :=
  update_user_profile (TIMEZONE_utc_NOW c) user_uuid profile_data db.

End Clock.
Export Clock.

Module MoreExamples.

(** A subject under its printed uuid, and another spelling of that uuid. *)
Definition carol_id : uuid := "a0eebc99-9c0b-4ef8-bb6d-6bb9bd380a11".
Definition carol_id_upper : string := "A0EEBC99-9C0B-4EF8-BB6D-6BB9BD380A11".

Definition carol : auth_user :=
  {| au_id := carol_id; au_email := Some "carol@example.com";
     au_raw_user_meta_data := None |}.

Definition carol_profile : profile :=
  {| user_id := carol_id; email := Some "carol@example.com";
     full_name := Some ""; avatar_url := Some "";
     created_at := 100; updated_at := 100 |}.

Definition db_carol : database :=
  {| auth_users := [carol]; profiles := [carol_profile]; audit_logs := [] |}.

(** The store after the identity record of the subject has gone, together
    with the profile that referenced it. *)
Definition db_carol_gone : database :=
  {| auth_users := []; profiles := []; audit_logs := [] |}.

(** A request whose verified subject is that subject; nothing fails on the
    way. *)
Definition env_carol : server_env :=
  {| createServerSupabase := Normal tt;
     auth_getUser :=
       Normal {| data_user := Some {| id := carol_id;
                                      user_email := Some "carol@example.com";
                                      user_metadata := None |};
                 user_error := None |};
     auth_getSession :=
       Normal {| data_session := Some {| access_token := "tok";
                                         session_user_id := carol_id |};
                 session_error := None |};
     rpc_fault := None;
     rpc_now := 200 |}.

Definition ctx_carol : auth_ctx :=
  {| auth_uid := Some carol_id;
     auth_jwt := Some {[ "role" := JString "authenticated" ]} |}.

(** The same subject with a token that carries the service role. *)
Definition ctx_carol_service : auth_ctx :=
  {| auth_uid := Some carol_id;
     auth_jwt := Some {[ "role" := JString "service_role" ]} |}.

(** Another owner and their profile row. *)
Definition dave_id : uuid := "b1ffcd00-1d2c-4e3f-8a4b-5c6d7e8f9012".

Definition dave_profile : profile :=
  {| user_id := dave_id; email := Some "dave@example.com";
     full_name := Some ""; avatar_url := Some "";
     created_at := 50; updated_at := 60 |}.

(** The exchange fails and the fallback lookup throws. *)
Definition env_lookup_throws : callback_env :=
  {| decodeURIComponent := fun s => Normal s;
     createClient := Normal tt;
     exchangeCodeForSession := fun _ => Throw (Error "code verifier missing");
     getSession := Throw (Error "Failed to fetch") |}.

(** A session in universal time, and a later one eight hours east of it. *)
Definition clock_utc : clock :=
  {| transaction_now := 100000; session_utc_offset := 0 |}.

Definition clock_later_east : clock :=
  {| transaction_now := 103600; session_utc_offset := 28800 |}.

End MoreExamples.
Export MoreExamples.

(* ===================================================================== *)
(** ** The authorization evaluator *)
(* ===================================================================== *)

Lemma holds_sql_eq_Some {A} `{EqDecision A} (a : A) (b : option A) :
  holds (sql_eq (Some a) b) = bool_decide (b = Some a).
Proof.
  destruct b as [b|]; simpl.
  - destruct (decide (a = b)) as [->|Hne].
    + rewrite !bool_decide_eq_true_2; done.
    + rewrite !bool_decide_eq_false_2; congruence.
  - reflexivity.
Qed.

Lemma holds_service_role_expr ctx :
  holds (service_role_expr ctx) = elevated ctx.
Proof.
  unfold service_role_expr, elevated.
  destruct (get_text (auth_jwt ctx) "role") as [r|]; simpl.
  - destruct (decide (r = "service_role")) as [->|Hne].
    + rewrite !bool_decide_eq_true_2; done.
    + rewrite !bool_decide_eq_false_2; congruence.
  - reflexivity.
Qed.

Lemma check_user_permission_table
    (ctx : auth_ctx) (resource_owner : option uuid) (permission : option text) :
  check_user_permission ctx resource_owner permission
  = rule_table (auth_uid ctx) resource_owner (elevated ctx).
Proof.
  unfold check_user_permission, rule_table.
  destruct (auth_uid ctx) as [s|]; simpl; [|reflexivity].
  change (match resource_owner with
          | Some y => Some (bool_decide (s = y))
          | None => None
          end) with (sql_eq (Some s) resource_owner).
  rewrite holds_sql_eq_Some, holds_service_role_expr. reflexivity.
Qed.

(** C1.  [check_user_permission] decides by the rule table, first match
    winning, whatever permission is requested: no subject, deny; subject is
    the resource owner, allow; subject carries the service role, allow;
    otherwise deny. *)
Theorem check_user_permission_rule_order
    (ctx : auth_ctx) (resource_owner : option uuid) (permission : option text) :
  check_user_permission ctx resource_owner permission
  = match auth_uid ctx with
    | None => false
    | Some s =>
        if bool_decide (resource_owner = Some s) then true
        else if elevated ctx then true
        else false
    end.
Proof. apply check_user_permission_table. Qed.

(** C10.  The requested permission does not influence the decision, neither
    in [check_user_permission] nor in [checkUserPermission]. *)
Theorem permission_argument_ignored
    (ctx : auth_ctx) (resource_owner : option uuid) (p1 p2 : option text)
    (env : server_env) (db : database) (userId : string) (q1 q2 : option string) :
  check_user_permission ctx resource_owner p1 = check_user_permission ctx resource_owner p2
  /\ checkUserPermission env userId q1 db = checkUserPermission env userId q2 db.
Proof. split; reflexivity. Qed.

(** *** Facts about [get_or_create_profile] used by the application check *)

Lemma profile_matches_Some (s : uuid) (p : profile) :
  profile_matches (Some s) p = bool_decide (user_id p = s).
Proof.
  unfold profile_matches. rewrite holds_sql_eq_Some.
  destruct (decide (user_id p = s)) as [->|Hne].
  - rewrite !bool_decide_eq_true_2; done.
  - rewrite !bool_decide_eq_false_2; congruence.
Qed.

Lemma auth_user_matches_Some (s : uuid) (a : auth_user) :
  auth_user_matches (Some s) a = bool_decide (au_id a = s).
Proof.
  unfold auth_user_matches. rewrite holds_sql_eq_Some.
  destruct (decide (au_id a = s)) as [->|Hne].
  - rewrite !bool_decide_eq_true_2; done.
  - rewrite !bool_decide_eq_false_2; congruence.
Qed.

Lemma goc_select_owner (s : uuid) (db : database) (p : profile) :
  goc_select (Some s) db = Some p -> user_id p = s.
Proof.
  unfold goc_select. intros H. apply List.find_some in H as [_ H].
  rewrite profile_matches_Some in H. by apply bool_decide_eq_true_1 in H.
Qed.

Lemma goc_select_None_has_profile (s : uuid) (db : database) :
  goc_select (Some s) db = None -> has_profile s db = false.
Proof.
  unfold goc_select, has_profile. intros H.
  induction (profiles db) as [|p ps IH]; simpl in *; [done|].
  destruct (profile_matches (Some s) p); [discriminate|]. by apply IH.
Qed.

Lemma goc_select_has_profile (s : uuid) (db : database) :
  is_Some (goc_select (Some s) db) <-> has_profile s db = true.
Proof.
  unfold goc_select, has_profile.
  induction (profiles db) as [|p ps IH]; simpl.
  - split; [intros [? ?]; discriminate | discriminate].
  - destruct (profile_matches (Some s) p); simpl; [|exact IH].
    split; [done | by eexists].
Qed.

Lemma filter_matches_unique (s : uuid) (l : list auth_user) :
  NoDup (List.map au_id l) ->
  existsb (auth_user_matches (Some s)) l = true ->
  exists a, List.filter (auth_user_matches (Some s)) l = [a] /\ au_id a = s.
Proof.
  induction l as [|a l IH]; simpl; [discriminate|].
  intros Hnd Hex. apply NoDup_cons in Hnd as [Hnotin Hnd].
  rewrite auth_user_matches_Some in *.
  destruct (decide (au_id a = s)) as [Heq|Hne].
  - rewrite bool_decide_eq_true_2 by done. exists a. split; [|done].
    f_equal. clear IH Hex Hnd.
    induction l as [|b l IHl]; simpl; [done|].
    rewrite auth_user_matches_Some.
    simpl in Hnotin. apply not_elem_of_cons in Hnotin as [Hab Hnotin].
    rewrite bool_decide_eq_false_2 by congruence. by apply IHl.
  - rewrite bool_decide_eq_false_2 in * by done. simpl in Hex. by apply IH.
Qed.

(** Run on a store that holds the subject's identity record, the procedure
    answers with a profile of that subject, found or created. *)
Lemma get_or_create_profile_registered (now : timestamptz) (s : uuid) (db : database) :
  has_auth_user s db = true ->
  NoDup (List.map au_id (auth_users db)) ->
  exists r db' p,
    get_or_create_profile now (Some s) db = Ok (r, db') /\
    success r = true /\ result_profile r = Some p /\ user_id p = s.
Proof.
  intros Hau Hnd. unfold get_or_create_profile.
  destruct (goc_select (Some s) db) as [p|] eqn:Hsel.
  - exists (FOUND p), db, p. repeat split. by eapply goc_select_owner.
  - apply goc_select_None_has_profile in Hsel.
    destruct (filter_matches_unique s (auth_users db) Hnd Hau) as (a & Hf & Ha).
    unfold goc_insert, goc_new_rows. rewrite Hf. simpl.
    unfold insert_profile. simpl. rewrite Hsel, Hau. simpl.
    eexists _, _, _. repeat split.
Qed.

(** *** The session resolver *)

Lemma getServerSession_verification_fails (env : server_env) (db : database) :
  verification_fails env ->
  getServerSession env db = (Normal None, db).
Proof.
  unfold verification_fails, getServerSession, getServerSession_try, try_catch.
  unfold mbind, js_mbind, js_bind, await, mret, js_mret, js_ret.
  destruct (createServerSupabase env) as [c|e]; [|done].
  destruct (auth_getUser env) as [r|e]; [|done].
  destruct r as [[u|] [e|]]; simpl; try done.
  intros [[? ?]|?]; discriminate.
Qed.

Lemma getServerSession_verified (env : server_env) (db : database) (u : User)
    (r : SessionResponse) :
  verified env u ->
  auth_getSession env = Normal r ->
  getServerSession env db =
    (Normal (Some
       {| session_user :=
            {| asu_id := id u; asu_email := user_email u;
               asu_user_metadata := default ∅ (user_metadata u) |};
          session_access_token := or_default (access_token <$> data_session r) "" |}),
     db).
Proof.
  intros [[c Hc] Hu] Hs.
  unfold getServerSession, getServerSession_try, try_catch.
  unfold mbind, js_mbind, js_bind, await, mret, js_mret, js_ret.
  rewrite Hc, Hu. simpl. rewrite Hs. reflexivity.
Qed.

Lemma getServerSession_secondary_throws (env : server_env) (db : database) (u : User)
    (e : js_error) :
  verified env u ->
  auth_getSession env = Throw e ->
  getServerSession env db = (Normal None, db).
Proof.
  intros [[c Hc] Hu] Hs.
  unfold getServerSession, getServerSession_try, try_catch.
  unfold mbind, js_mbind, js_bind, await, mret, js_mret, js_ret.
  rewrite Hc, Hu. simpl. rewrite Hs. reflexivity.
Qed.

(** *** The application-level check *)

Lemma app_decision_anonymous (env : server_env) (db : database)
    (o : string) (p : option string) :
  verification_fails env -> app_decision env db o p = false.
Proof.
  intros Hf. unfold app_decision, checkUserPermission, checkUserPermission_try.
  unfold authenticateUser, authenticateUser_try, try_catch.
  unfold mbind, js_mbind, js_bind.
  rewrite (getServerSession_verification_fails env db Hf). reflexivity.
Qed.

Lemma app_decision_present (env : server_env) (db : database)
    (s : uuid) (o : string) (p : option string) :
  presents env db (Some s) ->
  app_decision env db o p = bool_decide (s = o).
Proof.
  intros (Hne & (u & Hv & Hid) & (r & Hs) & Hfault & Hau & Hnd).
  unfold app_decision, checkUserPermission, checkUserPermission_try.
  unfold authenticateUser, authenticateUser_try, try_catch.
  unfold mbind, js_mbind, js_bind.
  rewrite (getServerSession_verified env db u r Hv Hs). simpl.
  rewrite Hid. unfold truthy. rewrite bool_decide_eq_false_2 by done. simpl.
  destruct Hv as [[c Hc] _]. unfold await. rewrite Hc.
  unfold rpc_get_or_create_profile. rewrite Hfault.
  destruct (get_or_create_profile_registered (rpc_now env) s db Hau Hnd)
    as (res & db' & pr & Hgoc & Hsucc & Hprof & Hown).
  rewrite Hgoc. simpl. rewrite Hsucc, Hprof. simpl. rewrite Hown.
  destruct (decide (s = o)) as [->|Hso].
  - rewrite !bool_decide_eq_true_2 by done. reflexivity.
  - rewrite !bool_decide_eq_false_2 by done. reflexivity.
Qed.

(** *** The row-level policies on [public.profiles] *)

Lemma rls_permits_profiles (ctx : auth_ctx) (cmd : command) (row : profile) :
  rls_permits profiles_policies ctx cmd row =
    (bool_decide (cmd <> DELETE) && holds (sql_eq (auth_uid ctx) (Some (user_id row))))
    || elevated ctx.
Proof.
  unfold rls_permits, profiles_policies, policy_applies. simpl.
  rewrite holds_service_role_expr.
  destruct cmd, (holds (sql_eq (auth_uid ctx) (Some (user_id row)))), (elevated ctx);
    reflexivity.
Qed.

(** C2, as stated, fails.  A caller whose token carries the service role
    asks for a resource of another owner: the application-level check denies
    and [check_user_permission] allows.  With the service key itself (the
    role and no subject), [check_user_permission] denies a read of that
    owner's profile row and the row-level policies permit it. *)
Lemma decisions_diverge_for_service_role :
  presents env_carol db_carol (auth_uid ctx_carol_service) /\
  uuid_in dave_id = Some (user_id dave_profile) /\
  app_decision env_carol db_carol dave_id (Some "read") = false /\
  check_user_permission ctx_carol_service (uuid_in dave_id) (Some "read") = true /\
  check_user_permission ctx_service_key (uuid_in dave_id) (Some "read") = false /\
  rls_permits profiles_policies ctx_service_key SELECT dave_profile = true.
Proof.
  split; [|by vm_compute].
  simpl. split; [done|]. split.
  { eexists. split; [split; [by eexists|reflexivity]|reflexivity]. }
  split; [by eexists|]. split; [reflexivity|]. split; [reflexivity|].
  apply (bool_decide_unpack _). by vm_compute.
Qed.

(** Other ways in which the three renderings part.  The application-level
    check compares texts, the storage layer compares uuid values: asked with
    another spelling of the caller's own uuid, [checkUserPermission] denies
    while [check_user_permission] and the policies allow. *)
Lemma decisions_diverge_on_uuid_spelling :
  presents env_carol db_carol (auth_uid ctx_carol) /\
  elevated ctx_carol = false /\
  carol_id_upper <> carol_id /\
  uuid_in carol_id_upper = Some (user_id carol_profile) /\
  app_decision env_carol db_carol carol_id_upper (Some "read") = false /\
  check_user_permission ctx_carol (uuid_in carol_id_upper) (Some "read") = true /\
  rls_permits profiles_policies ctx_carol SELECT carol_profile = true.
Proof.
  split; [|by vm_compute].
  simpl. split; [done|]. split.
  { eexists. split; [split; [by eexists|reflexivity]|reflexivity]. }
  split; [by eexists|]. split; [reflexivity|]. split; [reflexivity|].
  apply (bool_decide_unpack _). by vm_compute.
Qed.

(** The owner may not delete: for [DELETE] the policies refuse the owner,
    while the two functions, which ignore the permission, allow. *)
Lemma decisions_diverge_on_delete :
  app_decision env_carol db_carol carol_id (Some "delete") = true /\
  check_user_permission ctx_carol (uuid_in carol_id) (Some "delete") = true /\
  rls_permits profiles_policies ctx_carol DELETE carol_profile = false.
Proof. by vm_compute. Qed.

(** A verified subject whose identity record is not in [auth.users]: the
    profile lookup behind [checkUserPermission] answers [USER_NOT_FOUND] and
    the check denies the owner, while [check_user_permission] allows. *)
Lemma decisions_diverge_without_identity_record :
  has_auth_user carol_id db_carol_gone = false /\
  app_decision env_carol db_carol_gone carol_id (Some "read") = false /\
  check_user_permission ctx_carol (uuid_in carol_id) (Some "read") = true.
Proof. by vm_compute. Qed.

(** C2, amended.  The three renderings agree, all allowing exactly when the
    subject is the owner, under these conditions: the caller does not carry
    the service role (an absent subject is included); the command is a read,
    an insert or an update of the owner's profile row; the [userId] text
    handed to the application-level check is the printed text of the owner's
    uuid, the one the storage layer reads it as; and nothing fails between
    the application-level check and its profile lookup (the provider reports
    the subject under its printed uuid, the session fetch returns, the
    remote call is delivered, the subject's identity record is stored). *)
Theorem decisions_agree_on_printed_uuid
    (env : server_env) (db : database) (ctx : auth_ctx) (userId : string)
    (app_permission : option string) (permission : option text)
    (cmd : command) (row : profile) :
  presents env db (auth_uid ctx) ->
  elevated ctx = false ->
  cmd <> DELETE ->
  uuid_in userId = Some (user_id row) ->
  userId = user_id row ->
  app_decision env db userId app_permission
    = check_user_permission ctx (uuid_in userId) permission
  /\ check_user_permission ctx (uuid_in userId) permission
     = rls_permits profiles_policies ctx cmd row
  /\ rls_permits profiles_policies ctx cmd row
     = bool_decide (auth_uid ctx = uuid_in userId).
Proof.
  intros Hp Hel Hcmd Hin Hprinted. rewrite Hin. subst userId.
  rewrite check_user_permission_table, rls_permits_profiles, Hel.
  rewrite (bool_decide_eq_true_2 _ Hcmd). simpl. rewrite orb_false_r.
  unfold rule_table. destruct (auth_uid ctx) as [s|] eqn:Hs.
  - rewrite (app_decision_present env db s (user_id row) app_permission Hp).
    rewrite holds_sql_eq_Some.
    destruct (decide (s = user_id row)) as [->|Hne].
    + rewrite !bool_decide_eq_true_2 by done. done.
    + rewrite !bool_decide_eq_false_2 by congruence. done.
  - rewrite (app_decision_anonymous env db (user_id row) app_permission Hp). done.
Qed.

Lemma decisions_agree_on_printed_uuid_witness :
  app_decision env_carol db_carol carol_id None
    = check_user_permission ctx_carol (uuid_in carol_id) (Some "read")
  /\ check_user_permission ctx_carol (uuid_in carol_id) (Some "read")
     = rls_permits profiles_policies ctx_carol UPDATE carol_profile
  /\ rls_permits profiles_policies ctx_carol UPDATE carol_profile
     = bool_decide (auth_uid ctx_carol = uuid_in carol_id).
Proof.
  apply (decisions_agree_on_printed_uuid env_carol db_carol ctx_carol carol_id
           None (Some "read") UPDATE carol_profile).
  - simpl. split; [done|]. split.
    { eexists. split; [split; [by eexists|reflexivity]|reflexivity]. }
    split; [by eexists|]. split; [reflexivity|]. split; [reflexivity|].
    apply (bool_decide_unpack _). by vm_compute.
  - reflexivity.
  - discriminate.
  - by vm_compute.
  - reflexivity.
Defined.

(** Verification either fails or succeeds for some user: the cases of the
    resolver's contract below leave nothing out. *)
Lemma verification_fails_or_verified (env : server_env) :
  verification_fails env \/ exists u, verified env u.
Proof.
  unfold verification_fails, verified.
  destruct (createServerSupabase env) as [c|e]; [|by left].
  destruct (auth_getUser env) as [[[u|] [e|]]|e]; simpl; eauto.
Qed.

(** C6, as stated, fails.  Verification succeeds for [u1] and the secondary
    session fetch fails by throwing: the resolver returns [null]. *)
Lemma getServerSession_null_when_secondary_fetch_throws :
  verified env_u1_session_throws
    {| id := "u1"; user_email := Some "alice@example.com"; user_metadata := None |} /\
  auth_getSession env_u1_session_throws = Throw (Error "fetch failed") /\
  getServerSession env_u1_session_throws db_identities = (Normal None, db_identities).
Proof.
  split; [split; [by eexists|reflexivity]|]. split; reflexivity.
Qed.

(** C6, amended.  [getServerSession] returns [null] whenever identity
    verification fails, in whichever way.  When verification succeeds and the
    secondary session fetch returns (with a session, without one, with an
    error), a session carrying the verified subject is returned; its access
    token is the fetched one, or empty.  When the secondary fetch throws, the
    result is [null].  The store is never touched. *)
Theorem getServerSession_contract (env : server_env) (db : database) :
  (verification_fails env -> getServerSession env db = (Normal None, db)) /\
  (forall u r, verified env u -> auth_getSession env = Normal r ->
     exists sess,
       getServerSession env db = (Normal (Some sess), db) /\
       asu_id (session_user sess) = id u /\
       asu_email (session_user sess) = user_email u /\
       session_access_token sess = or_default (access_token <$> data_session r) "") /\
  (forall u e, verified env u -> auth_getSession env = Throw e ->
     getServerSession env db = (Normal None, db)).
Proof.
  split; [apply getServerSession_verification_fails|]. split.
  - intros u r Hv Hs. eexists. split.
    + apply (getServerSession_verified env db u r Hv Hs).
    + done.
  - intros u e. apply getServerSession_secondary_throws.
Qed.

Lemma getServerSession_contract_witness :
  exists sess,
    getServerSession env_u1_session_error db_identities
      = (Normal (Some sess), db_identities) /\
    asu_id (session_user sess) = "u1" /\
    asu_email (session_user sess) = Some "alice@example.com" /\
    session_access_token sess = "".
Proof.
  apply (proj1 (proj2 (getServerSession_contract env_u1_session_error db_identities))
           {| id := "u1"; user_email := Some "alice@example.com"; user_metadata := None |}
           {| data_session := None; session_error := Some (Error "session missing") |}).
  - split; [by eexists|reflexivity].
  - reflexivity.
Defined.

(* ===================================================================== *)
(** ** The OAuth callback reconciler *)
(* ===================================================================== *)

Ltac run_js :=
  unfold mbind, js_mbind, js_bind, mret, js_mret, js_ret, await, throw, read,
    modify, try_catch_finally, try_catch in *.

(** C3, as stated, fails.  On the landing of a refused consent the
    reconciler ends in the failed state with the decoded description, sends
    nothing to the provider, and leaves the URL as it was: [error] and
    [error_description] are still there. *)
Lemma error_landing_keeps_transient_params :
  terminal (land default_props env_replayed url_denied) = true /\
  status (land default_props env_replayed url_denied) = st_error /\
  message (land default_props env_replayed url_denied) = "User denied" /\
  provider_calls (land default_props env_replayed url_denied) = [] /\
  location (land default_props env_replayed url_denied) = url_denied /\
  stripped (location (land default_props env_replayed url_denied)) = false.
Proof. repeat split. Qed.

Lemma land_terminal_location
    (props : AuthCallbackProps) (env : callback_env) (url : URL) :
  terminal (land props env url) = true /\
  navigations (land props env url) = [] /\
  location (land props env url)
    = (if exchange_attempted env url then bare url else url).
Proof.
  unfold exchange_attempted, has_oauth_error, has_code.
  unfold land, handleAuthCallback, obtain_session, call_provider,
    setStatus, setMessage, setTimeout_push, replaceState, initial.
  run_js. simpl.
  destruct (or_else (get url "error_description") (get url "error")) as [e|]; simpl.
  - destruct (truthy e); simpl.
    + destruct (decodeURIComponent env e); simpl; repeat split.
    + destruct (createClient env); simpl; [|repeat split].
      * destruct (truthy_opt (get url "code")); simpl.
        -- destruct (exchangeCodeForSession env url) as [[[s|] [err|]]|err]; simpl;
             try (destruct (getSession env) as [[[s'|] err']|err']; simpl);
             repeat split.
        -- destruct (getSession env) as [[[s'|] [err'|]]|err']; simpl;
             repeat split.
      * rewrite andb_false_r. reflexivity.
  - destruct (createClient env); simpl; [|repeat split].
    * destruct (truthy_opt (get url "code")); simpl.
      -- destruct (exchangeCodeForSession env url) as [[[s|] [err|]]|err]; simpl;
           try (destruct (getSession env) as [[[s'|] err']|err']; simpl);
           repeat split.
      -- destruct (getSession env) as [[[s'|] [err'|]]|err']; simpl;
           repeat split.
    * rewrite andb_false_r. reflexivity.
Qed.

(** C3, amended.  The reconciler always ends in a terminal state and never
    navigates by itself.  When it gets as far as the code exchange, the
    visible URL has been replaced by its bare path, so no query parameter is
    left, whichever way the exchange and the fallback lookup end.  On the
    error-parameter branch and on the direct fallback branch the URL is left
    as it was: there the transient parameters are gone at the end only if the
    landing URL did not carry them. *)
Theorem landing_url_at_terminal_state
    (props : AuthCallbackProps) (env : callback_env) (url : URL) :
  terminal (land props env url) = true /\
  navigations (land props env url) = [] /\
  location (land props env url)
    = (if exchange_attempted env url then bare url else url) /\
  stripped (location (land props env url))
    = exchange_attempted env url || stripped url.
Proof.
  destruct (land_terminal_location props env url) as (Ht & Hn & Hl).
  repeat split; try done.
  rewrite Hl. by destruct (exchange_attempted env url).
Qed.

(** C4, as stated, fails.  The landing carries a code, the exchange fails,
    and the fallback lookup itself throws: no session is obtained, the
    landing ends failed, and the message shown is the thrown one, not the
    "no session obtained" one. *)
Lemma fallback_lookup_throw_shows_thrown_message :
  exchange_attempted env_lookup_throws url_code = true /\
  exchange_fails env_lookup_throws url_code /\
  getSession env_lookup_throws = Throw (Error "Failed to fetch") /\
  provider_calls (land default_props env_lookup_throws url_code)
    = [ExchangeCodeForSession url_code; GetSession] /\
  session_of default_props env_lookup_throws url_code = Normal None /\
  status (land default_props env_lookup_throws url_code) = st_error /\
  message (land default_props env_lookup_throws url_code) = "Failed to fetch" /\
  message (land default_props env_lookup_throws url_code) <> NO_SESSION_MESSAGE.
Proof. repeat split. discriminate. Qed.

(** C4, amended.  On a landing that carries an authorization code and whose
    code exchange fails, by throwing or by answering with an error, the
    reconciler performs exactly one fallback session lookup after the one
    exchange.  If the lookup returns an established session, the reconciler
    ends in the succeeded state with that session and schedules the success
    redirect.  If the lookup returns no session, it ends in the failed state
    with the "no session obtained" message.  If the lookup itself throws, it
    ends in the failed state with the thrown message (the generic failure
    text when that is empty).  Both failures schedule the failure
    redirect. *)
Theorem exchange_failure_fallback_outcome
    (props : AuthCallbackProps) (env : callback_env) (url : URL) :
  exchange_attempted env url = true ->
  exchange_fails env url ->
  provider_calls (land props env url) = [ExchangeCodeForSession url; GetSession] /\
  match getSession env with
  | Normal lookup =>
      match data_session lookup with
      | Some s =>
          status (land props env url) = st_success /\
          session_of props env url = Normal (Some s) /\
          timers (land props env url) = [(successDelay props, successRedirect props)]
      | None =>
          status (land props env url) = st_error /\
          message (land props env url) = NO_SESSION_MESSAGE /\
          session_of props env url = Normal None /\
          timers (land props env url) = [(errorDelay props, errorRedirect props)]
      end
  | Throw e =>
      status (land props env url) = st_error /\
      message (land props env url)
        = or_default (Some (error_message e)) GENERIC_FAILURE_MESSAGE /\
      session_of props env url = Normal None /\
      timers (land props env url) = [(errorDelay props, errorRedirect props)]
  end.
Proof.
  unfold exchange_attempted, has_oauth_error, has_code, exchange_fails.
  intros Hatt Hfail.
  apply andb_true_iff in Hatt as [Hatt Hclient].
  apply andb_true_iff in Hatt as [Herr Hcode].
  apply negb_true_iff in Herr.
  unfold session_of, land, handleAuthCallback, obtain_session, call_provider,
    setStatus, setMessage, setTimeout_push, replaceState, initial.
  run_js. simpl.
  destruct (or_else (get url "error_description") (get url "error")) as [e|];
    simpl in *; [rewrite Herr|]; simpl;
    (destruct (createClient env); [|discriminate]); simpl;
    rewrite Hcode; simpl;
    destruct (exchangeCodeForSession env url) as [[sx [ex|]]|ex]; simpl;
    try (by destruct Hfail);
    destruct (getSession env) as [[[s|] err]|err]; simpl; repeat split.
Qed.

Lemma exchange_failure_fallback_outcome_witness :
  provider_calls (land default_props env_replayed url_code)
    = [ExchangeCodeForSession url_code; GetSession] /\
  status (land default_props env_replayed url_code) = st_success /\
  session_of default_props env_replayed url_code = Normal (Some established) /\
  timers (land default_props env_replayed url_code) = [(1500%Z, "/")].
Proof.
  apply (exchange_failure_fallback_outcome default_props env_replayed url_code).
  - reflexivity.
  - simpl. by eexists.
Defined.

(** When the fallback lookup itself throws, the reconciler still ends in the
    failed state; the message is then the thrown one, or the generic one when
    that is empty. *)
Lemma exchange_failure_lookup_throws
    (props : AuthCallbackProps) (env : callback_env) (url : URL) (e : js_error) :
  exchange_attempted env url = true ->
  exchange_fails env url ->
  getSession env = Throw e ->
  status (land props env url) = st_error /\
  message (land props env url)
    = or_default (Some (error_message e)) GENERIC_FAILURE_MESSAGE /\
  location (land props env url) = bare url.
Proof.
  unfold exchange_attempted, has_oauth_error, has_code, exchange_fails.
  intros Hatt Hfail Hlookup.
  apply andb_true_iff in Hatt as [Hatt Hclient].
  apply andb_true_iff in Hatt as [Herr Hcode].
  apply negb_true_iff in Herr.
  unfold land, handleAuthCallback, obtain_session, call_provider,
    setStatus, setMessage, setTimeout_push, replaceState, initial.
  run_js. simpl.
  destruct (or_else (get url "error_description") (get url "error")) as [e'|];
    simpl in *; [rewrite Herr|]; simpl;
    (destruct (createClient env); [|discriminate]); simpl;
    rewrite Hcode; simpl; rewrite Hlookup;
    destruct (exchangeCodeForSession env url) as [[sx [ex|]]|ex]; simpl;
    try (by destruct Hfail); repeat split.
Qed.

(** On the error-parameter branch neither the exchange nor the lookup is
    requested. *)
Lemma oauth_error_never_exchanges
    (props : AuthCallbackProps) (env : callback_env) (url : URL) :
  has_oauth_error url = true ->
  provider_calls (land props env url) = [] /\
  status (land props env url) = st_error /\
  location (land props env url) = url.
Proof.
  unfold has_oauth_error.
  unfold land, handleAuthCallback, obtain_session, call_provider,
    setStatus, setMessage, setTimeout_push, replaceState, initial.
  run_js. simpl. intros Herr.
  destruct (or_else (get url "error_description") (get url "error")) as [e|];
    simpl in *; [|discriminate].
  rewrite Herr. destruct (decodeURIComponent env e); simpl; repeat split.
Qed.

(* ===================================================================== *)
(** ** The profile synchronizer *)
(* ===================================================================== *)

Lemma COALESCE_merged (incoming stored : option text) :
  COALESCE incoming stored = merged incoming stored.
Proof. by destruct incoming. Qed.

Lemma update_where_on_rows_of (u : uuid) (f : profile -> profile) (ps : list profile) :
  update_where (Some u) f ps = on_rows_of u f ps.
Proof.
  unfold update_where, on_rows_of.
  induction ps as [|p ps IH]; simpl; [done|].
  rewrite profile_matches_Some. by f_equal.
Qed.

Lemma find_update_where (u : option uuid) (f : profile -> profile) (ps : list profile) :
  (forall p, user_id (f p) = user_id p) ->
  List.find (profile_matches u) (update_where u f ps)
  = f <$> List.find (profile_matches u) ps.
Proof.
  intros Hf. unfold update_where.
  induction ps as [|p ps IH]; simpl; [done|].
  destruct (profile_matches u p) eqn:Hm.
  - unfold profile_matches in *. by rewrite Hf, Hm.
  - by rewrite Hm.
Qed.

(** C5, as stated, fails.  The profile of [u1] has the display name "Alice";
    an upstream change carrying an empty display name overwrites it with the
    empty string. *)
Lemma passive_sync_empty_name_overwrites :
  exists db' p',
    sync_profile_from_auth_users 300 TG_UPDATE alice_blank_name db_profiles
      = Ok (Some alice_blank_name, db') /\
    goc_select (Some "u1") db_profiles = Some alice_profile /\
    full_name alice_profile = Some "Alice" /\
    goc_select (Some "u1") db' = Some p' /\
    full_name p' = Some "" /\
    email p' = Some "alice@new.example".
Proof. eexists _, _. repeat split. Qed.

(** C5, amended.  A passive sync for an upstream change of [NEW] rewrites
    the profile rows of that subject and no other row: the e-mail address
    becomes the upstream one, whatever it is; display name and avatar become
    the upstream value whenever the upstream metadata has one that is not
    [null], the empty string included, and keep the stored value when the key
    is missing or [null]; [updated_at] becomes the current timestamp.  The
    trigger returns [NEW] and never raises. *)
Theorem passive_sync_overwrites_non_null
    (now : timestamptz) (NEW : auth_user) (db : database) :
  sync_profile_from_auth_users now TG_UPDATE NEW db
  = Ok (Some NEW, with_profiles db (on_rows_of (au_id NEW) (synced now NEW) (profiles db))).
Proof.
  unfold sync_profile_from_auth_users. rewrite update_where_on_rows_of.
  do 3 f_equal. unfold on_rows_of.
  apply list_fmap_ext. intros _ p _.
  destruct (bool_decide (user_id p = au_id NEW)); [|done].
  unfold sync_row, handle_updated_at, synced. simpl.
  by rewrite !COALESCE_merged.
Qed.

(** A passive sync that does not mention the display name keeps it. *)
Lemma passive_sync_absent_name_preserved :
  exists db' p',
    sync_profile_from_auth_users 300 TG_UPDATE alice_new_email db_profiles
      = Ok (Some alice_new_email, db') /\
    goc_select (Some "u1") db' = Some p' /\
    full_name p' = Some "Alice" /\
    email p' = Some "alice@new.example".
Proof. eexists _, _. repeat split. Qed.

(** C8, as stated, fails.  Two updates of one profile run with the same
    clock value (two statements of one transaction): the first moves
    [updated_at] to it, the second is answered [UPDATED] and leaves
    [updated_at] where it is. *)
Lemma update_same_timestamp_does_not_advance :
  exists p1 db1 p2 db2,
    update_user_profile 300 (Some "u1") (Some {[ "full_name" := JString "Al" ]}) db_profiles
      = (UPDATED p1, db1) /\
    update_user_profile 300 (Some "u1") (Some ∅) db1 = (UPDATED p2, db2) /\
    goc_select (Some "u1") db1 = Some p1 /\
    updated_at p1 = 300%Z /\
    updated_at p2 = 300%Z /\
    ~ (updated_at p1 < updated_at p2)%Z.
Proof. eexists _, _, _, _. repeat split. simpl. lia. Qed.

Lemma update_user_profile_patched
    (now : timestamptz) (u : uuid) (profile_data : option jsonb) (db : database) :
  update_user_profile now (Some u) profile_data db
  = match goc_select (Some u) db with
    | None => (NOT_FOUND, db)
    | Some p =>
        (UPDATED (patched now profile_data p),
         with_profiles db (on_rows_of u (patched now profile_data) (profiles db)))
    end.
Proof.
  assert (Hrow : forall p, update_user_profile_row now profile_data p
                           = patched now profile_data p).
  { intros p. unfold update_user_profile_row, handle_updated_at, patched. simpl.
    by rewrite !COALESCE_merged. }
  unfold update_user_profile, goc_select.
  rewrite find_update_where by done.
  destruct (List.find (profile_matches (Some u)) (profiles db)) as [p|]; simpl; [|done].
  rewrite Hrow, update_where_on_rows_of. do 2 f_equal.
  unfold on_rows_of. apply list_fmap_ext. intros _ q _.
  by rewrite Hrow.
Qed.

(** The stored [updated_at] can also move backwards: an update in a session
    of universal time, then a later update from a session eight hours east.
    The second transaction starts later and leaves an earlier
    [updated_at]. *)
Lemma update_from_another_zone_moves_updated_at_back :
  exists p1 db1 p2 db2,
    update_user_profile_at clock_utc (Some "u1") (Some ∅) db_profiles = (UPDATED p1, db1) /\
    update_user_profile_at clock_later_east (Some "u1") (Some ∅) db1 = (UPDATED p2, db2) /\
    (transaction_now clock_utc < transaction_now clock_later_east)%Z /\
    (updated_at p2 < updated_at p1)%Z.
Proof. eexists _, _, _, _. repeat split. Qed.

(** C8, amended.  [update_user_profile] answers [NOT_FOUND], changing
    nothing, when the subject has no profile row.  Otherwise it answers
    [UPDATED] with the subject's row after the update: each of e-mail,
    display name and avatar is overwritten with the given value when the
    partial document gives one that is not [null], and is left as stored when
    the field is omitted or [null]; [user_id] and [created_at] are kept;
    [updated_at] becomes what [TIMEZONE('utc', NOW())] stores, the
    universal wall-clock reading of the transaction timestamp taken as a
    local time of the session's zone, whatever value was stored before.
    Nothing orders the new value after the stored one.  Rows of other
    subjects are left alone. *)
Theorem update_user_profile_at_merges
    (c : clock) (u : uuid) (profile_data : option jsonb) (db : database) :
  update_user_profile_at c (Some u) profile_data db
  = match goc_select (Some u) db with
    | None => (NOT_FOUND, db)
    | Some p =>
        (UPDATED (patched (transaction_now c - session_utc_offset c) profile_data p),
         with_profiles db
           (on_rows_of u (patched (transaction_now c - session_utc_offset c) profile_data)
              (profiles db)))
    end.
Proof. unfold update_user_profile_at, TIMEZONE_utc_NOW. apply update_user_profile_patched. Qed.

(** A stored value is never replaced by [NULL], and the example of the
    specification: an e-mail address set by one update survives an empty
    update. *)
Lemma patched_never_nulls (now : timestamptz) (profile_data : option jsonb) (p : profile) :
  (is_Some (email p) -> is_Some (email (patched now profile_data p))) /\
  (is_Some (full_name p) -> is_Some (full_name (patched now profile_data p))) /\
  (is_Some (avatar_url p) -> is_Some (avatar_url (patched now profile_data p))).
Proof.
  unfold patched, merged; simpl.
  repeat split; intros H; by destruct (get_text profile_data _).
Qed.

Lemma update_then_empty_update_keeps_email :
  exists p1 db1 p2 db2,
    update_user_profile 300 (Some "u1") (Some {[ "email" := JString "a@b.com" ]}) db_profiles
      = (UPDATED p1, db1) /\
    update_user_profile 400 (Some "u1") (Some ∅) db1 = (UPDATED p2, db2) /\
    email p2 = Some "a@b.com" /\
    full_name p2 = full_name alice_profile /\
    (updated_at alice_profile < updated_at p1 < updated_at p2)%Z.
Proof. eexists _, _, _, _. repeat split. Qed.

(** *** Concurrent first-time calls *)

(** A caller that runs alone goes through its two statements and ends with
    the answer of the procedure. *)
Lemma goc_steps_run_alone (now : timestamptz) (u : option uuid) (db : database) :
  let '(pc1, db1) := goc_step now u AtSelect db in
  let '(pc2, db2) := goc_step now u pc1 db1 in
  match get_or_create_profile now u db with
  | Ok (r, db') => pc2 = Returned (Ok r) /\ db2 = db'
  | Raise e => pc2 = Returned (Raise e) /\ db2 = db
  end.
Proof.
  unfold goc_step, get_or_create_profile.
  destruct (goc_select u db) as [p|]; [done|].
  by destruct (goc_insert now u db) as [[r db']|e].
Qed.

(** When the two calls do not overlap, the second caller finds the row the
    first one created, and there is one row. *)
Lemma serial_first_calls_share_the_row
    (nowA nowB : timestamptz) (s : uuid) (db : database) :
  has_auth_user s db = true ->
  NoDup (List.map au_id (auth_users db)) ->
  has_profile s db = false ->
  exists row,
    pcA (goc_race_run nowA nowB (Some s) [CallerA; CallerA; CallerB] db)
      = Returned (Ok (CREATED row)) /\
    pcB (goc_race_run nowA nowB (Some s) [CallerA; CallerA; CallerB] db)
      = Returned (Ok (FOUND row)) /\
    profiles (shared (goc_race_run nowA nowB (Some s) [CallerA; CallerA; CallerB] db))
      = (profiles db ++ [row])%list.
Proof.
  intros Hau Hnd Hnone.
  destruct (filter_matches_unique s (auth_users db) Hnd Hau) as (a & Hf & Ha).
  assert (Hsel : goc_select (Some s) db = None).
  { destruct (goc_select (Some s) db) eqn:E; [|done].
    assert (is_Some (goc_select (Some s) db)) as Hs by (rewrite E; by eexists).
    apply goc_select_has_profile in Hs. congruence. }
  exists (goc_new_row nowA s a).
  unfold goc_race_run, goc_race_init. simpl.
  rewrite Hsel. simpl.
  unfold goc_insert, goc_new_rows. rewrite Hf. simpl.
  unfold insert_profile. simpl. rewrite Hnone, Hau. simpl.
  unfold goc_select. simpl.
  assert (Hfind : List.find (profile_matches (Some s))
                    (profiles db ++ [goc_new_row nowA s a])%list
                  = Some (goc_new_row nowA s a)).
  { unfold has_profile in Hnone. clear -Hnone.
    induction (profiles db) as [|p ps IH]; simpl in *.
    - rewrite profile_matches_Some. simpl. by rewrite bool_decide_eq_true_2.
    - apply orb_false_iff in Hnone as [Hp Hps]. rewrite Hp. by apply IH. }
  rewrite Hfind. done.
Qed.

(** The primary key holds under every interleaving: no schedule of the two
    callers leaves two rows with one [user_id]. *)
Lemma insert_profile_keeps_key (p : profile) (db db' : database) :
  NoDup (List.map user_id (profiles db)) ->
  insert_profile p db = Ok db' ->
  NoDup (List.map user_id (profiles db')).
Proof.
  unfold insert_profile. intros Hnd.
  destruct (has_profile (user_id p) db) eqn:Hhas; [discriminate|].
  destruct (negb (has_auth_user (user_id p) db)); [discriminate|].
  intros [= <-]. simpl. rewrite List.map_app. simpl.
  apply NoDup_app. split; [done|]. split; [|apply NoDup_singleton].
  intros k Hk Hk'. apply list_elem_of_singleton in Hk'. subst k.
  unfold has_profile in Hhas.
  apply list_elem_of_fmap in Hk as (q & Hq & Hin).
  assert (existsb (profile_matches (Some (user_id p))) (profiles db) = true) as Hex.
  { apply existsb_exists. exists q. split; [by apply list_elem_of_In|].
    rewrite profile_matches_Some. by apply bool_decide_eq_true_2. }
  congruence.
Qed.

Lemma insert_profiles_keeps_key (rows : list profile) (db db' : database) :
  NoDup (List.map user_id (profiles db)) ->
  insert_profiles rows db = Ok db' ->
  NoDup (List.map user_id (profiles db')).
Proof.
  revert db. induction rows as [|r rows IH]; simpl; intros db Hnd.
  - by intros [= <-].
  - destruct (insert_profile r db) as [db1|e] eqn:Hins; simpl; [|discriminate].
    apply IH. by eapply insert_profile_keeps_key.
Qed.

Lemma goc_step_keeps_key (now : timestamptz) (u : option uuid) (pc : goc_pc)
    (db : database) :
  NoDup (List.map user_id (profiles db)) ->
  NoDup (List.map user_id (profiles (goc_step now u pc db).2)).
Proof.
  intros Hnd. destruct pc as [| |r]; simpl; [| |done].
  - by destruct (goc_select u db).
  - destruct (goc_insert now u db) as [[r db']|e] eqn:Hins; simpl; [|done].
    unfold goc_insert in Hins.
    destruct (insert_profiles (goc_new_rows now u db) db) as [db1|e] eqn:Hrows;
      simpl in Hins; [|discriminate].
    apply (insert_profiles_keeps_key _ _ _ Hnd) in Hrows.
    by destruct (goc_new_rows now u db); injection Hins as <- <-.
Qed.

Lemma goc_race_keeps_key (nowA nowB : timestamptz) (u : option uuid)
    (schedule : list caller) (db : database) :
  NoDup (List.map user_id (profiles db)) ->
  NoDup (List.map user_id (profiles (shared (goc_race_run nowA nowB u schedule db)))).
Proof.
  unfold goc_race_run. intros Hnd.
  change db with (shared (goc_race_init db)) in Hnd.
  generalize dependent (goc_race_init db). clear db.
  induction schedule as [|who schedule IH]; simpl; intros st Hnd; [done|].
  apply IH. destruct who; simpl.
  - pose proof (goc_step_keeps_key nowA u (pcA st) (shared st) Hnd) as H.
    by destruct (goc_step nowA u (pcA st) (shared st)).
  - pose proof (goc_step_keeps_key nowB u (pcB st) (shared st) Hnd) as H.
    by destruct (goc_step nowB u (pcB st) (shared st)).
Qed.

(** C9.  Two first-time calls for [u1] overlap: both run their [SELECT]
    before either runs its [INSERT].  One row is created, the first caller is
    answered [CREATED], and the second caller's [INSERT] raises
    [unique_violation]: it is answered with an error, not with the winner's
    row. *)
Theorem concurrent_first_calls_loser_raises :
  pcA (goc_race_run 200 201 (Some "u1") [CallerA; CallerB; CallerA; CallerB] db_identities)
    = Returned (Ok (CREATED (goc_new_row 200 "u1" alice))) /\
  pcB (goc_race_run 200 201 (Some "u1") [CallerA; CallerB; CallerA; CallerB] db_identities)
    = Returned (Raise unique_violation) /\
  profile_count "u1"
    (shared (goc_race_run 200 201 (Some "u1") [CallerA; CallerB; CallerA; CallerB]
               db_identities)) = 1.
Proof. repeat split. Qed.

(* ===================================================================== *)
(** ** The audit recorder *)
(* ===================================================================== *)

(** C7, as stated, fails.  A call without an action, and a call by a subject
    whose identity record is gone, both raise to the caller. *)
Lemma log_audit_event_raises :
  log_audit_event ctx_u1 "a1" 300 None (Some "profiles") (Some "u1") None None db_identities
    = Raise not_null_violation /\
  log_audit_event ctx_deleted_user "a1" 300 (Some "profile.update") (Some "profiles")
    (Some "u9") None None db_identities
    = Raise foreign_key_violation.
Proof. split; reflexivity. Qed.

(** C7, amended.  [log_audit_event] returns normally exactly when the insert
    is admissible, and then it has appended one row that records
    [auth.uid()] as the actor and the given action, and nothing else has
    changed.  When the insert is not admissible, the error is raised to the
    caller. *)
Theorem log_audit_event_outcome
    (ctx : auth_ctx) (new_id : uuid) (now : timestamptz) (p_action : option text)
    (p_table_name p_record_id : option text) (p_old_values p_new_values : option jsonb)
    (db : database) :
  match log_audit_event ctx new_id now p_action p_table_name p_record_id
          p_old_values p_new_values db with
  | Ok db' =>
      audit_admissible ctx new_id p_action db = true /\
      exists row,
        audit_logs db' = (audit_logs db ++ [row])%list /\
        al_id row = new_id /\
        al_user_id row = auth_uid ctx /\
        Some (al_action row) = p_action /\
        al_table_name row = p_table_name /\
        al_record_id row = p_record_id /\
        al_old_values row = p_old_values /\
        al_new_values row = p_new_values /\
        al_created_at row = now /\
        profiles db' = profiles db /\
        auth_users db' = auth_users db
  | Raise _ => audit_admissible ctx new_id p_action db = false
  end.
Proof.
  unfold log_audit_event, insert_audit_log, audit_admissible.
  destruct p_action as [a|]; simpl; [|done].
  destruct (existsb _ (audit_logs db)); simpl; [done|].
  destruct (auth_uid ctx) as [u|]; simpl.
  - destruct (has_auth_user u db); simpl; [|done].
    split; [done|]. eexists. repeat split.
  - split; [done|]. eexists. repeat split.
Qed.

(* ===================================================================== *)
(** ** More on the stored procedures *)
(* ===================================================================== *)

Lemma with_profiles_same (db : database) : with_profiles db (profiles db) = db.
Proof. by destruct db. Qed.

Lemma insert_profiles_Ok (rows : list profile) (db db' : database) :
  insert_profiles rows db = Ok db' ->
  db' = with_profiles db (profiles db ++ rows)%list.
Proof.
  revert db. induction rows as [|r rows IH]; simpl; intros db.
  - intros [= <-]. by rewrite app_nil_r, with_profiles_same.
  - destruct (insert_profile r db) as [db1|e] eqn:Hins; simpl; [|discriminate].
    intros H. apply IH in H. subst db'.
    unfold insert_profile in Hins.
    destruct (has_profile (user_id r) db); [discriminate|].
    destruct (negb (has_auth_user (user_id r) db)); [discriminate|].
    injection Hins as <-. unfold with_profiles. simpl.
    by rewrite <- app_assoc.
Qed.

Lemma find_app_None {A} (f : A -> bool) (l l' : list A) :
  List.find f l = None -> List.find f (l ++ l') = List.find f l'.
Proof.
  induction l as [|a l IH]; simpl; [done|].
  destruct (f a); [discriminate|]. exact IH.
Qed.

(** A second row for the same subject cannot follow the first: the plain
    insert stops at the key. *)
Lemma insert_profiles_same_key (r1 r2 : profile) (rows : list profile) (db : database) :
  user_id r1 = user_id r2 ->
  exists e, insert_profiles (r1 :: r2 :: rows) db = Raise e.
Proof.
  intros Hk. simpl.
  destruct (insert_profile r1 db) as [db1|e] eqn:H1; simpl; [|by eexists].
  assert (has_profile (user_id r2) db1 = true) as Hhas.
  { unfold insert_profile in H1.
    destruct (has_profile (user_id r1) db); [discriminate|].
    destruct (negb (has_auth_user (user_id r1) db)); [discriminate|].
    injection H1 as <-. unfold has_profile, with_profiles. simpl.
    rewrite existsb_app. simpl. rewrite profile_matches_Some.
    rewrite (bool_decide_eq_true_2 _ Hk). by rewrite orb_true_r. }
  unfold insert_profile. rewrite Hhas. simpl. by eexists.
Qed.

Lemma goc_new_rows_owner (now : timestamptz) (u : option uuid) (db : database) (r : profile) :
  r ∈ goc_new_rows now u db -> u = Some (user_id r).
Proof.
  unfold goc_new_rows. destruct u as [s|]; [|by intros ?%elem_of_nil].
  intros (a & -> & _)%list_elem_of_fmap. reflexivity.
Qed.

(** What a successful creation looks like: one row, appended. *)
Lemma goc_insert_CREATED (now : timestamptz) (u : option uuid) (db db' : database)
    (r : ProcedureResult) :
  goc_insert now u db = Ok (r, db') ->
  (r = USER_NOT_FOUND /\ db' = db /\ goc_new_rows now u db = []) \/
  (exists row, r = CREATED row /\ goc_new_rows now u db = [row] /\
               u = Some (user_id row) /\
               db' = with_profiles db (profiles db ++ [row])%list).
Proof.
  unfold goc_insert.
  destruct (insert_profiles (goc_new_rows now u db) db) as [db1|e] eqn:Hins;
    simpl; [|discriminate].
  destruct (goc_new_rows now u db) as [|r1 [|r2 rows]] eqn:Hrows.
  - intros [= <- <-]. left. simpl in Hins. injection Hins as <-. done.
  - intros [= <- <-]. right. exists r1. repeat split.
    + apply (goc_new_rows_owner now u db). rewrite Hrows. by left.
    + by apply insert_profiles_Ok in Hins.
  - assert (user_id r1 = user_id r2) as Hk.
    { assert (u = Some (user_id r1)) as H1
        by (apply (goc_new_rows_owner now u db); rewrite Hrows; by left).
      assert (u = Some (user_id r2)) as H2
        by (apply (goc_new_rows_owner now u db); rewrite Hrows; right; by left).
      congruence. }
    destruct (insert_profiles_same_key r1 r2 rows db Hk) as [e He]. congruence.
Qed.

(** X1.  [get_or_create_profile] is idempotent: after a call that answered
    with a profile (found or created), any later call for the same subject
    answers [FOUND] with that very profile and leaves the store as it is. *)
Theorem get_or_create_profile_idempotent
    (now now' : timestamptz) (u : option uuid) (db db' : database)
    (r : ProcedureResult) (p : profile) :
  get_or_create_profile now u db = Ok (r, db') ->
  result_profile r = Some p ->
  get_or_create_profile now' u db' = Ok (FOUND p, db').
Proof.
  unfold get_or_create_profile. intros Hcall Hp.
  destruct (goc_select u db) as [q|] eqn:Hsel.
  - injection Hcall as <- <-. simpl in Hp. injection Hp as ->. by rewrite Hsel.
  - apply goc_insert_CREATED in Hcall as [(-> & _ & _)|(row & -> & _ & Hu & ->)];
      [discriminate|].
    simpl in Hp. injection Hp as ->.
    unfold goc_select in *. simpl.
    rewrite (find_app_None _ _ _ Hsel). simpl.
    subst u. rewrite profile_matches_Some, bool_decide_eq_true_2 by done. done.
Qed.

Lemma get_or_create_profile_idempotent_witness :
  get_or_create_profile 900 (Some "u1")
    (with_profiles db_identities [goc_new_row 200 "u1" alice])
  = Ok (FOUND (goc_new_row 200 "u1" alice),
        with_profiles db_identities [goc_new_row 200 "u1" alice]).
Proof.
  apply (get_or_create_profile_idempotent 200 900 (Some "u1") db_identities _
           (CREATED (goc_new_row 200 "u1" alice))); reflexivity.
Defined.

(** X2.  A subject with neither a profile nor an identity record, and the
    [NULL] subject, are answered [USER_NOT_FOUND]; nothing is written. *)
Theorem get_or_create_profile_user_not_found
    (now : timestamptz) (u : option uuid) (db : database) :
  (forall s, u = Some s -> has_profile s db = false /\ has_auth_user s db = false) ->
  get_or_create_profile now u db = Ok (USER_NOT_FOUND, db).
Proof.
  intros H. unfold get_or_create_profile, goc_select, goc_insert, goc_new_rows.
  destruct u as [s|].
  - destruct (H s eq_refl) as [Hp Ha].
    assert (List.find (profile_matches (Some s)) (profiles db) = None) as ->.
    { unfold has_profile in Hp. induction (profiles db) as [|p ps IH]; simpl in *; [done|].
      apply orb_false_iff in Hp as [-> Hps]. by apply IH. }
    assert (List.filter (auth_user_matches (Some s)) (auth_users db) = []) as ->.
    { unfold has_auth_user in Ha.
      induction (auth_users db) as [|a l IH]; simpl in *; [done|].
      apply orb_false_iff in Ha as [-> Hl]. by apply IH. }
    reflexivity.
  - assert (List.find (profile_matches None) (profiles db) = None) as ->.
    { induction (profiles db) as [|p ps IH]; simpl; [done|]. exact IH. }
    reflexivity.
Qed.

Lemma get_or_create_profile_user_not_found_witness :
  get_or_create_profile 200 (Some "u9") db_identities = Ok (USER_NOT_FOUND, db_identities).
Proof.
  apply (get_or_create_profile_user_not_found 200 (Some "u9") db_identities).
  intros s [= <-]. split; reflexivity.
Defined.

(** X3.  A profile that [get_or_create_profile] creates is the only row
    written, is appended after the rows that were there, belongs to the
    asked subject, has no [NULL] text column (a missing e-mail address,
    display name or avatar is stored as the empty string), and carries the
    clock value of the call in both [created_at] and [updated_at]. *)
Theorem get_or_create_profile_created_row
    (now : timestamptz) (s : uuid) (db db' : database) (r : ProcedureResult) :
  get_or_create_profile now (Some s) db = Ok (r, db') ->
  code r = "CREATED" ->
  exists row,
    result_profile r = Some row /\
    profiles db' = (profiles db ++ [row])%list /\
    auth_users db' = auth_users db /\
    audit_logs db' = audit_logs db /\
    user_id row = s /\
    is_Some (email row) /\ is_Some (full_name row) /\ is_Some (avatar_url row) /\
    created_at row = now /\ updated_at row = now.
Proof.
  unfold get_or_create_profile. intros Hcall Hcode.
  destruct (goc_select (Some s) db) as [q|] eqn:Hsel.
  - injection Hcall as <- <-. discriminate.
  - apply goc_insert_CREATED in Hcall as [(-> & _ & _)|(row & -> & Hrows & Hu & ->)];
      [discriminate|].
    exists row. clear Hu Hsel Hcode.
    unfold goc_new_rows in Hrows.
    destruct (List.filter _ (auth_users db)) as [|a [|? ?]]; try discriminate.
    simpl in Hrows. injection Hrows as <-. simpl.
    repeat split.
    + by destruct (au_email a); eexists.
    + by destruct (get_text _ "full_name"); eexists.
    + by destruct (get_text _ "avatar_url"); eexists.
Qed.

Lemma get_or_create_profile_created_row_witness :
  exists row,
    result_profile (CREATED (goc_new_row 200 "u2" bob)) = Some row /\
    profiles (with_profiles db_identities [goc_new_row 200 "u2" bob])
      = (profiles db_identities ++ [row])%list /\
    auth_users (with_profiles db_identities [goc_new_row 200 "u2" bob])
      = auth_users db_identities /\
    audit_logs (with_profiles db_identities [goc_new_row 200 "u2" bob])
      = audit_logs db_identities /\
    user_id row = "u2" /\
    is_Some (email row) /\ is_Some (full_name row) /\ is_Some (avatar_url row) /\
    created_at row = 200%Z /\ updated_at row = 200%Z.
Proof.
  apply (get_or_create_profile_created_row 200 "u2" db_identities
           (with_profiles db_identities [goc_new_row 200 "u2" bob])
           (CREATED (goc_new_row 200 "u2" bob))); reflexivity.
Defined.

Lemma existsb_false_filter_nil {A} (f : A -> bool) (l : list A) :
  existsb f l = false -> List.filter f l = [].
Proof.
  induction l as [|a l IH]; simpl; [done|].
  intros [-> Hl]%orb_false_iff. by apply IH.
Qed.

Lemma has_auth_user_with_profiles (s : uuid) (db : database) (ps : list profile) :
  has_auth_user s (with_profiles db ps) = has_auth_user s db.
Proof. reflexivity. Qed.

(** X4.  Run alone on a store that satisfies the schema's constraints,
    [get_or_create_profile] never raises, whatever subject it is asked for,
    and the store it leaves satisfies the constraints again. *)
Theorem get_or_create_profile_keeps_consistent
    (now : timestamptz) (u : option uuid) (db : database) :
  consistent db ->
  exists r db', get_or_create_profile now u db = Ok (r, db') /\ consistent db'.
Proof.
  intros (Hau & Hpk & Hfk). unfold get_or_create_profile.
  destruct (goc_select u db) as [p|] eqn:Hsel; [by eexists _, _|].
  destruct u as [s|]; [|by eexists _, _].
  destruct (has_auth_user s db) eqn:Hhas.
  - destruct (filter_matches_unique s (auth_users db) Hau Hhas) as (a & Hf & Ha).
    apply goc_select_None_has_profile in Hsel.
    unfold goc_insert, goc_new_rows. rewrite Hf. simpl.
    destruct (insert_profile (goc_new_row now s a) db) as [db1|e] eqn:Hins.
    + simpl. eexists _, _. split; [done|].
      pose proof (insert_profile_keeps_key _ _ _ Hpk Hins) as Hpk1.
      assert (db1 = with_profiles db (profiles db ++ [goc_new_row now s a])%list) as ->.
      { apply (insert_profiles_Ok [goc_new_row now s a]). simpl. by rewrite Hins. }
      split; [done|]. split; [done|].
      simpl. apply Forall_app. split.
      * eapply Forall_impl; [exact Hfk|]. by intros p Hp.
      * by constructor.
    + unfold insert_profile in Hins. simpl in Hins.
      rewrite Hsel, Hhas in Hins. discriminate.
  - unfold goc_insert, goc_new_rows, has_auth_user in *.
    rewrite (existsb_false_filter_nil _ _ Hhas). simpl. by eexists _, _.
Qed.

Lemma db_profiles_consistent : consistent db_profiles.
Proof.
  split; [|split].
  - apply (bool_decide_unpack _). by vm_compute.
  - apply (bool_decide_unpack _). by vm_compute.
  - repeat constructor.
Qed.

Lemma get_or_create_profile_keeps_consistent_witness :
  exists r db', get_or_create_profile 200 (Some "u1") db_profiles = Ok (r, db')
                /\ consistent db'.
Proof.
  apply (get_or_create_profile_keeps_consistent 200 (Some "u1") db_profiles).
  split; [|split].
  - apply (bool_decide_unpack _). by vm_compute.
  - apply (bool_decide_unpack _). by vm_compute.
  - repeat constructor.
Defined.

(** *** [update_user_profile] *)

Lemma update_user_profile_row_patched
    (now : timestamptz) (profile_data : option jsonb) (p : profile) :
  update_user_profile_row now profile_data p = patched now profile_data p.
Proof.
  unfold update_user_profile_row, handle_updated_at, patched. simpl.
  by rewrite !COALESCE_merged.
Qed.

Lemma merged_twice (incoming stored : option text) :
  merged incoming (merged incoming stored) = merged incoming stored.
Proof. by destruct incoming. Qed.

Lemma patched_twice (now : timestamptz) (profile_data : option jsonb) (p : profile) :
  patched now profile_data (patched now profile_data p) = patched now profile_data p.
Proof. unfold patched. simpl. by rewrite !merged_twice. Qed.

Lemma update_where_twice (u : option uuid) (f : profile -> profile) (ps : list profile) :
  (forall p, user_id (f p) = user_id p) ->
  (forall p, f (f p) = f p) ->
  update_where u f (update_where u f ps) = update_where u f ps.
Proof.
  intros Hk Hf. unfold update_where. rewrite List.map_map.
  apply List.map_ext. intros p.
  destruct (profile_matches u p) eqn:Hm; [|by rewrite Hm].
  unfold profile_matches in *. by rewrite Hk, Hm, Hf.
Qed.

(** X5.  [update_user_profile] is idempotent within a transaction: repeating
    the call with the same document at the same timestamp gives the same
    answer and leaves the store as the first call left it. *)
Theorem update_user_profile_idempotent
    (now : timestamptz) (u : option uuid) (profile_data : option jsonb) (db : database) :
  update_user_profile now u profile_data
    (update_user_profile now u profile_data db).2
  = update_user_profile now u profile_data db.
Proof.
  unfold update_user_profile.
  set (f := update_user_profile_row now profile_data).
  assert (Hk : forall p, user_id (f p) = user_id p) by done.
  assert (Hf : forall p, f (f p) = f p).
  { intros p. unfold f. rewrite !update_user_profile_row_patched. apply patched_twice. }
  rewrite (find_update_where u f (profiles db) Hk).
  destruct (List.find (profile_matches u) (profiles db)) as [p|] eqn:Hfind; simpl.
  - rewrite (update_where_twice u f (profiles db) Hk Hf).
    rewrite (find_update_where u f (profiles db) Hk), Hfind. simpl. reflexivity.
  - rewrite (find_update_where u f (profiles db) Hk), Hfind. reflexivity.
Qed.

(** X6.  [update_user_profile] never adds, removes, reorders or re-keys a
    row, and touches neither the identity records nor the audit log: the
    column of [user_id]s, [auth.users] and [audit_logs] are the same before
    and after, whatever the answer. *)
Theorem update_user_profile_keeps_keys
    (now : timestamptz) (u : option uuid) (profile_data : option jsonb) (db : database) :
  List.map user_id (profiles (update_user_profile now u profile_data db).2)
    = List.map user_id (profiles db) /\
  List.map created_at (profiles (update_user_profile now u profile_data db).2)
    = List.map created_at (profiles db) /\
  auth_users (update_user_profile now u profile_data db).2 = auth_users db /\
  audit_logs (update_user_profile now u profile_data db).2 = audit_logs db.
Proof.
  unfold update_user_profile.
  destruct (List.find _ (update_where _ _ _)) as [updated|]; simpl; [|done].
  unfold update_where. rewrite !List.map_map.
  repeat split; apply List.map_ext; intros q; by destruct (profile_matches u q).
Qed.

(** X7.  Two updates in a row merge: after updating with [d1] and then with
    [d2], each text column of the subject's row holds the value of [d2] when
    [d2] gives one, else the value of [d1] when [d1] gives one, else what was
    stored; [updated_at] is the timestamp of the second update. *)
Theorem update_user_profile_twice
    (t1 t2 : timestamptz) (s : uuid) (d1 d2 : option jsonb) (db : database) (p : profile) :
  goc_select (Some s) db = Some p ->
  exists p2 db2,
    update_user_profile t2 (Some s) d2 (update_user_profile t1 (Some s) d1 db).2
      = (UPDATED p2, db2) /\
    goc_select (Some s) db2 = Some p2 /\
    email p2 = merged (get_text d2 "email") (merged (get_text d1 "email") (email p)) /\
    full_name p2
      = merged (get_text d2 "full_name") (merged (get_text d1 "full_name") (full_name p)) /\
    avatar_url p2
      = merged (get_text d2 "avatar_url") (merged (get_text d1 "avatar_url") (avatar_url p)) /\
    user_id p2 = user_id p /\ created_at p2 = created_at p /\ updated_at p2 = t2.
Proof.
  unfold goc_select. intros Hsel.
  set (f1 := update_user_profile_row t1 d1).
  set (f2 := update_user_profile_row t2 d2).
  assert (H1 : update_user_profile t1 (Some s) d1 db
               = (UPDATED (f1 p), with_profiles db (update_where (Some s) f1 (profiles db)))).
  { unfold update_user_profile. fold f1.
    rewrite (find_update_where (Some s) f1 (profiles db)) by done.
    by rewrite Hsel. }
  rewrite H1. cbn [snd].
  assert (Hsel1 : List.find (profile_matches (Some s))
                    (update_where (Some s) f1 (profiles db)) = Some (f1 p)).
  { rewrite (find_update_where (Some s) f1 (profiles db)) by done. by rewrite Hsel. }
  exists (f2 (f1 p)),
    (with_profiles db (update_where (Some s) f2 (update_where (Some s) f1 (profiles db)))).
  split; [|split].
  - unfold update_user_profile. fold f2. cbn [profiles with_profiles].
    rewrite (find_update_where (Some s) f2 _) by done.
    by rewrite Hsel1.
  - cbn [profiles with_profiles].
    rewrite (find_update_where (Some s) f2 _) by done.
    by rewrite Hsel1.
  - unfold f1, f2. rewrite !update_user_profile_row_patched. done.
Qed.

Lemma update_user_profile_twice_witness :
  exists p2 db2,
    update_user_profile 400 (Some "u1") (Some {[ "avatar_url" := JString "a.png" ]})
      (update_user_profile 300 (Some "u1") (Some {[ "email" := JString "a@b.com" ]})
         db_profiles).2
      = (UPDATED p2, db2) /\
    goc_select (Some "u1") db2 = Some p2 /\
    email p2 = merged (get_text (Some {[ "avatar_url" := JString "a.png" ]}) "email")
                 (merged (get_text (Some {[ "email" := JString "a@b.com" ]}) "email")
                    (email alice_profile)) /\
    full_name p2
      = merged (get_text (Some {[ "avatar_url" := JString "a.png" ]}) "full_name")
          (merged (get_text (Some {[ "email" := JString "a@b.com" ]}) "full_name")
             (full_name alice_profile)) /\
    avatar_url p2
      = merged (get_text (Some {[ "avatar_url" := JString "a.png" ]}) "avatar_url")
          (merged (get_text (Some {[ "email" := JString "a@b.com" ]}) "avatar_url")
             (avatar_url alice_profile)) /\
    user_id p2 = user_id alice_profile /\ created_at p2 = created_at alice_profile /\
    updated_at p2 = 400%Z.
Proof.
  apply (update_user_profile_twice 300 400 "u1" _ _ db_profiles alice_profile).
  reflexivity.
Defined.

(** *** [sync_profile_from_auth_users] *)

Lemma sync_insert_cases (now : timestamptz) (NEW : auth_user) (db : database) :
  sync_profile_from_auth_users now TG_INSERT NEW db
  = if has_profile (au_id NEW) db then Ok (Some NEW, db)
    else if has_auth_user (au_id NEW) db
         then Ok (Some NEW, with_profiles db (profiles db ++ [sync_new_row now NEW])%list)
         else Raise foreign_key_violation.
Proof.
  unfold sync_profile_from_auth_users, insert_profile_on_conflict_do_nothing,
    insert_profile. fold (sync_new_row now NEW). simpl.
  destruct (has_profile (au_id NEW) db); [done|].
  by destruct (has_auth_user (au_id NEW) db).
Qed.

(** X8.  The [INSERT] branch of the sync trigger absorbs a duplicate: when
    the subject already has a profile it returns [NEW] and writes nothing;
    otherwise it appends one row with the upstream e-mail address and the
    upstream or empty display name and avatar.  The only error it can raise
    is the foreign-key one, when the identity record is not in the store;
    it never raises on the key. *)
Theorem sync_insert_absorbs_conflict
    (now : timestamptz) (NEW : auth_user) (db : database) :
  match sync_profile_from_auth_users now TG_INSERT NEW db with
  | Ok (ret, db') =>
      ret = Some NEW /\
      db' = (if has_profile (au_id NEW) db then db
             else with_profiles db (profiles db ++ [sync_new_row now NEW])%list)
  | Raise e =>
      e = foreign_key_violation /\
      has_profile (au_id NEW) db = false /\ has_auth_user (au_id NEW) db = false
  end.
Proof.
  rewrite sync_insert_cases.
  destruct (has_profile (au_id NEW) db); [done|].
  by destruct (has_auth_user (au_id NEW) db).
Qed.

Lemma has_profile_app (s : uuid) (db : database) (row : profile) :
  user_id row = s ->
  has_profile s (with_profiles db (profiles db ++ [row])%list) = true.
Proof.
  intros Hk. unfold has_profile. simpl. rewrite existsb_app. simpl.
  rewrite profile_matches_Some, (bool_decide_eq_true_2 _ Hk). by rewrite orb_true_r.
Qed.

(** X9.  After the [INSERT] branch of the sync trigger has run, the subject
    is provisioned: a repeated insert notification for the same subject
    writes nothing, and [get_or_create_profile] answers [FOUND] and writes
    nothing. *)
Theorem sync_insert_then_found
    (now now' : timestamptz) (NEW NEW' : auth_user) (db db' : database)
    (ret : option auth_user) :
  sync_profile_from_auth_users now TG_INSERT NEW db = Ok (ret, db') ->
  au_id NEW' = au_id NEW ->
  sync_profile_from_auth_users now' TG_INSERT NEW' db' = Ok (Some NEW', db') /\
  exists p, user_id p = au_id NEW /\
            get_or_create_profile now' (Some (au_id NEW)) db' = Ok (FOUND p, db').
Proof.
  rewrite sync_insert_cases. intros Hsync Hid.
  assert (has_profile (au_id NEW) db' = true) as Hhas.
  { destruct (has_profile (au_id NEW) db) eqn:Hp.
    - by injection Hsync as _ <-.
    - destruct (has_auth_user (au_id NEW) db); [|discriminate].
      injection Hsync as _ <-. by apply has_profile_app. }
  split.
  - rewrite sync_insert_cases, Hid, Hhas. done.
  - apply goc_select_has_profile in Hhas as [p Hp].
    exists p. split; [by eapply goc_select_owner|].
    unfold get_or_create_profile. by rewrite Hp.
Qed.

Lemma sync_insert_then_found_witness :
  sync_profile_from_auth_users 900 TG_INSERT alice_new_email
    (with_profiles db_identities [sync_new_row 200 alice])
  = Ok (Some alice_new_email, with_profiles db_identities [sync_new_row 200 alice]) /\
  exists p, user_id p = au_id alice /\
            get_or_create_profile 900 (Some (au_id alice))
              (with_profiles db_identities [sync_new_row 200 alice])
            = Ok (FOUND p, with_profiles db_identities [sync_new_row 200 alice]).
Proof.
  apply (sync_insert_then_found 200 900 alice alice_new_email db_identities _ (Some alice));
    reflexivity.
Defined.

Lemma update_where_no_match (u : option uuid) (f : profile -> profile) (ps : list profile) :
  existsb (profile_matches u) ps = false -> update_where u f ps = ps.
Proof.
  unfold update_where. induction ps as [|p ps IH]; simpl; [done|].
  intros [-> Hps]%orb_false_iff. f_equal. by apply IH.
Qed.

(** X10.  An upstream change for a subject that has no profile is dropped:
    the [UPDATE] branch of the sync trigger returns [NEW] and leaves the
    store exactly as it was; it does not create the profile. *)
Theorem sync_update_without_profile
    (now : timestamptz) (NEW : auth_user) (db : database) :
  has_profile (au_id NEW) db = false ->
  sync_profile_from_auth_users now TG_UPDATE NEW db = Ok (Some NEW, db).
Proof.
  intros Hp. unfold sync_profile_from_auth_users.
  rewrite (update_where_no_match _ _ _ Hp). by rewrite with_profiles_same.
Qed.

Lemma sync_update_without_profile_witness :
  sync_profile_from_auth_users 300 TG_UPDATE alice_new_email db_identities
  = Ok (Some alice_new_email, db_identities).
Proof.
  apply (sync_update_without_profile 300 alice_new_email db_identities). reflexivity.
Defined.

(** *** [test_auth_setup] *)

Lemma delete_profiles_where_no_match (u : option uuid) (db : database) :
  existsb (profile_matches u) (profiles db) = false ->
  delete_profiles_where u db = db.
Proof.
  intros H. unfold delete_profiles_where.
  assert (List.filter (fun p => negb (profile_matches u p)) (profiles db) = profiles db) as ->.
  { induction (profiles db) as [|p ps IH]; simpl in *; [done|].
    apply orb_false_iff in H as [-> Hps]. simpl. f_equal. by apply IH. }
  apply with_profiles_same.
Qed.

(** With a fresh identifier the first insert of [test_auth_setup] violates
    the foreign key of [public.profiles]; the handler reports that error. *)
Lemma test_auth_setup_fresh_id_errors
    (test_user_id : uuid) (now : timestamptz) (SQLERRM : sqlstate -> text) (db : database) :
  has_auth_user test_user_id db = false ->
  has_profile test_user_id db = false ->
  test_auth_setup test_user_id now SQLERRM db
  = (TEST_ERROR +:+ SQLERRM foreign_key_violation, db).
Proof.
  intros Ha Hp. unfold test_auth_setup, insert_profile. simpl.
  rewrite Hp, Ha. simpl. by rewrite (delete_profiles_where_no_match _ _ Hp).
Qed.

Lemma delete_profiles_where_appended (s : uuid) (db : database) (row : profile) :
  user_id row = s ->
  has_profile s db = false ->
  delete_profiles_where (Some s) (with_profiles db (profiles db ++ [row])%list) = db.
Proof.
  intros Hk Hp. unfold delete_profiles_where. cbn [profiles with_profiles].
  rewrite List.filter_app. cbn [List.filter].
  rewrite profile_matches_Some, (bool_decide_eq_true_2 _ Hk). cbn [negb].
  rewrite app_nil_r.
  pose proof (delete_profiles_where_no_match (Some s) db Hp) as H.
  unfold delete_profiles_where in H. destruct db. simpl in *. exact H.
Qed.

(** With the identifier of an identity record that has no profile, the
    test passes and removes the row it inserted. *)
Lemma test_auth_setup_passes_and_cleans_up
    (test_user_id : uuid) (now : timestamptz) (SQLERRM : sqlstate -> text) (db : database) :
  has_auth_user test_user_id db = true ->
  has_profile test_user_id db = false ->
  test_auth_setup test_user_id now SQLERRM db = (TEST_PASSED, db).
Proof.
  intros Ha Hp. unfold test_auth_setup, insert_profile. simpl.
  rewrite Hp, Ha. simpl.
  unfold get_or_create_profile, goc_select. cbn [profiles with_profiles].
  assert (List.find (profile_matches (Some test_user_id)) (profiles db) = None) as Hnone.
  { unfold has_profile in Hp. induction (profiles db) as [|p ps IH]; simpl in *; [done|].
    apply orb_false_iff in Hp as [-> Hps]. by apply IH. }
  rewrite (find_app_None _ _ _ Hnone). cbn [List.find].
  rewrite profile_matches_Some, bool_decide_eq_true_2 by done.
  cbn [mbind outcome_bind obind mret outcome_ret success FOUND].
  by rewrite (delete_profiles_where_appended test_user_id db) by done.
Qed.

(* ===================================================================== *)
(** ** More on the row-level policies *)
(* ===================================================================== *)

Lemma holds_sql_eq_sym {A} `{EqDecision A} (a b : option A) :
  holds (sql_eq a b) = holds (sql_eq b a).
Proof.
  destruct a as [x|], b as [y|]; simpl; try reflexivity.
  destruct (decide (x = y)) as [->|Hne].
  - by rewrite !bool_decide_eq_true_2.
  - rewrite !bool_decide_eq_false_2; congruence.
Qed.

(** X13.  A caller without the service role reaches a profile row only if
    it is the caller's own, and never with [DELETE]: whenever the policies
    on [public.profiles] permit such a caller a command on a row, the command
    is a read, an insert or an update and the row's [user_id] is the
    caller's [auth.uid()]. *)
Theorem profiles_policies_owner_only
    (ctx : auth_ctx) (cmd : command) (row : profile) :
  elevated ctx = false ->
  rls_permits profiles_policies ctx cmd row = true ->
  cmd <> DELETE /\ auth_uid ctx = Some (user_id row).
Proof.
  intros Hel. rewrite rls_permits_profiles, Hel, orb_false_r.
  intros [Hcmd Hown]%andb_true_iff.
  split; [by apply bool_decide_eq_true_1 in Hcmd|].
  rewrite holds_sql_eq_sym, holds_sql_eq_Some in Hown.
  by apply bool_decide_eq_true_1 in Hown.
Qed.

Lemma profiles_policies_owner_only_witness :
  UPDATE <> DELETE /\ auth_uid ctx_u1 = Some (user_id alice_profile).
Proof.
  apply (profiles_policies_owner_only ctx_u1 UPDATE alice_profile); reflexivity.
Defined.

Lemma is_admin_elevated (ctx : auth_ctx) : is_admin ctx = elevated ctx.
Proof. unfold is_admin. rewrite holds_service_role_expr. by destruct (elevated ctx). Qed.

Lemma rls_permits_audit_logs
    (ctx : auth_ctx) (cmd : command) (row : audit_log) :
  rls_permits audit_logs_policies ctx cmd row
  = (bool_decide (cmd = SELECT)
     && bool_decide (is_Some (auth_uid ctx) /\ al_user_id row = auth_uid ctx))
    || elevated ctx.
Proof.
  unfold rls_permits, audit_logs_policies, policy_applies. simpl.
  rewrite holds_service_role_expr, is_admin_elevated.
  destruct (elevated ctx) eqn:Hel.
  - destruct cmd; simpl; rewrite ?orb_true_r; try reflexivity.
    all: by destruct (holds (sql_or _ _)), (bool_decide _).
  - rewrite !orb_false_r.
    destruct cmd; simpl; try reflexivity.
    destruct (auth_uid ctx) as [s|], (al_user_id row) as [a|]; simpl.
    + destruct (decide (s = a)) as [->|Hne].
      * rewrite !bool_decide_eq_true_2; [done|by split; [eexists|]|done].
      * rewrite !bool_decide_eq_false_2; [done| |done].
        intros [_ [=]]. congruence.
    + first [reflexivity | symmetry; apply bool_decide_eq_false_2; by intros [_ [=]]].
    + first [reflexivity | symmetry; apply bool_decide_eq_false_2; by intros [[? [=]] _]].
    + first [reflexivity | symmetry; apply bool_decide_eq_false_2; by intros [[? [=]] _]].
Qed.

(** X14.  The policies on [public.audit_logs] let a caller read exactly the
    rows whose actor is the caller's [auth.uid()], and let the service role
    do everything; nobody else can insert, update or delete an audit row, and
    a row without an actor is readable by the service role only. *)
Theorem audit_logs_policies_decision
    (ctx : auth_ctx) (cmd : command) (row : audit_log) :
  rls_permits audit_logs_policies ctx cmd row
  = (bool_decide (cmd = SELECT)
     && bool_decide (is_Some (auth_uid ctx) /\ al_user_id row = auth_uid ctx))
    || elevated ctx.
Proof. apply rls_permits_audit_logs. Qed.

(** X15.  An audit row written by [log_audit_event] for a signed-in caller
    can be read back by that caller, and by no other caller that lacks the
    service role; a row written for a caller without a subject can be read
    by the service role only. *)
Theorem log_audit_event_row_readable_by_actor
    (ctx reader : auth_ctx) (new_id : uuid) (now : timestamptz) (p_action : option text)
    (p_table_name p_record_id : option text) (p_old_values p_new_values : option jsonb)
    (db db' : database) :
  log_audit_event ctx new_id now p_action p_table_name p_record_id
    p_old_values p_new_values db = Ok db' ->
  exists row,
    audit_logs db' = (audit_logs db ++ [row])%list /\
    rls_permits audit_logs_policies reader SELECT row
    = bool_decide (is_Some (auth_uid reader) /\ auth_uid ctx = auth_uid reader)
      || elevated reader.
Proof.
  unfold log_audit_event, insert_audit_log.
  destruct p_action as [a|]; [|discriminate].
  destruct (existsb _ (audit_logs db)); [discriminate|].
  destruct (match auth_uid ctx with Some u => negb (has_auth_user u db) | None => false end);
    [discriminate|].
  intros [= <-]. eexists. split; [reflexivity|].
  by rewrite rls_permits_audit_logs.
Qed.

Lemma log_audit_event_row_readable_by_actor_witness :
  exists row,
    audit_logs
      (with_audit_logs db_identities
         [ {| al_id := "a1"; al_user_id := Some "u1"; al_action := "profile.update";
              al_table_name := None; al_record_id := None; al_old_values := None;
              al_new_values := None; al_ip_address := None; al_user_agent := None;
              al_created_at := 300 |} ])
    = (audit_logs db_identities ++ [row])%list /\
    rls_permits audit_logs_policies ctx_u1 SELECT row
    = bool_decide (is_Some (auth_uid ctx_u1) /\ auth_uid ctx_u1 = auth_uid ctx_u1)
      || elevated ctx_u1.
Proof.
  apply (log_audit_event_row_readable_by_actor ctx_u1 ctx_u1 "a1" 300
           (Some "profile.update") None None None None db_identities).
  reflexivity.
Defined.

(** X16.  [check_user_permission] is never more generous than the policies
    it stands for: whenever it allows a caller on a resource owner, the
    policies on [public.profiles] permit that caller to read, insert and
    update the owner's row. *)
Theorem check_user_permission_within_policies
    (ctx : auth_ctx) (permission : option text) (cmd : command) (row : profile) :
  check_user_permission ctx (Some (user_id row)) permission = true ->
  cmd <> DELETE ->
  rls_permits profiles_policies ctx cmd row = true.
Proof.
  rewrite check_user_permission_table, rls_permits_profiles. unfold rule_table.
  intros Hallow Hcmd. rewrite (bool_decide_eq_true_2 _ Hcmd). simpl.
  destruct (auth_uid ctx) as [s|]; [|discriminate]. simpl.
  destruct (decide (s = user_id row)) as [->|Hne].
  - by rewrite bool_decide_eq_true_2.
  - rewrite bool_decide_eq_false_2 in Hallow by congruence.
    rewrite bool_decide_eq_false_2 by done.
    by destruct (elevated ctx).
Qed.

Lemma check_user_permission_within_policies_witness :
  rls_permits profiles_policies ctx_u1_service INSERT bob_profile = true.
Proof.
  apply (check_user_permission_within_policies ctx_u1_service (Some "write"));
    [reflexivity|discriminate].
Defined.

(* ===================================================================== *)
(** ** More on the server-side functions *)
(* ===================================================================== *)

Lemma getServerSession_cases (env : server_env) (db : database) :
  getServerSession env db = (Normal None, db) \/
  exists u r,
    verified env u /\ auth_getSession env = Normal r /\
    getServerSession env db =
      (Normal (Some
         {| session_user :=
              {| asu_id := id u; asu_email := user_email u;
                 asu_user_metadata := default ∅ (user_metadata u) |};
            session_access_token := or_default (access_token <$> data_session r) "" |}),
       db).
Proof.
  destruct (verification_fails_or_verified env) as [Hf|[u Hv]].
  - left. by apply getServerSession_verification_fails.
  - destruct (auth_getSession env) as [r|e] eqn:Hs.
    + right. exists u, r. split; [done|]. split; [done|].
      by apply getServerSession_verified.
    + left. by eapply getServerSession_secondary_throws.
Qed.

Lemma get_or_create_profile_stored (now : timestamptz) (s : uuid) (db db' : database)
    (res : ProcedureResult) :
  get_or_create_profile now (Some s) db = Ok (res, db') ->
  match result_profile res with
  | Some p =>
      user_id p = s /\ has_profile s db' = true /\
      (db' = db \/
       (has_profile s db = false /\ db' = with_profiles db (profiles db ++ [p])%list))
  | None => db' = db
  end.
Proof.
  unfold get_or_create_profile.
  destruct (goc_select (Some s) db) as [p|] eqn:Hsel.
  - intros [= <- <-]. simpl. split; [by eapply goc_select_owner|].
    split; [|by left]. apply goc_select_has_profile. by eexists.
  - intros [(-> & -> & _)|(row & -> & _ & [= ->] & ->)]%goc_insert_CREATED; simpl; [done|].
    split; [done|]. split; [by apply has_profile_app|].
    right. split; [by apply goc_select_None_has_profile|done].
Qed.

(** What [authenticateUser] can answer, and what it does to the store. *)
Lemma authenticateUser_inversion (env : server_env) (db : database) :
  authenticateUser env db = (Normal None, db) \/
  exists u r p db',
    verified env u /\ auth_getSession env = Normal r /\
    id u <> "" /\ rpc_fault env = None /\
    user_id p = id u /\ has_profile (id u) db' = true /\
    (db' = db \/
     (has_profile (id u) db = false /\ db' = with_profiles db (profiles db ++ [p])%list)) /\
    authenticateUser env db =
      (Normal (Some
         {| up_user_id := user_id p;
            up_email := user_email u;
            up_full_name := default ∅ (user_metadata u) !! "full_name";
            up_avatar_url := default ∅ (user_metadata u) !! "avatar_url";
            up_created_at := created_at p;
            up_updated_at := updated_at p |}), db').
Proof.
  unfold authenticateUser, authenticateUser_try, try_catch.
  unfold mbind, js_mbind, js_bind.
  destruct (getServerSession_cases env db) as [->|(u & r & Hv & Hs & ->)]; [by left|].
  simpl. unfold truthy.
  destruct (decide (id u = "")) as [Hid|Hid].
  { rewrite (bool_decide_eq_true_2 _ Hid). by left. }
  rewrite (bool_decide_eq_false_2 _ Hid). simpl.
  destruct Hv as [[c Hc] Hu]. unfold await. rewrite Hc.
  unfold rpc_get_or_create_profile.
  destruct (rpc_fault env) as [e|] eqn:Hfault; [by left|].
  destruct (get_or_create_profile (rpc_now env) (Some (id u)) db) as [[res db']|e] eqn:Hgoc;
    [|by left].
  pose proof (get_or_create_profile_stored _ _ _ _ _ Hgoc) as Hst.
  simpl.
  destruct (success res) eqn:Hsucc; simpl.
  - destruct (result_profile res) as [p|] eqn:Hp.
    + destruct Hst as (Hown & Hhas & Hdb).
      right. exists u, r, p, db'. repeat split; try done. by eexists.
    + subst db'. by left.
  - destruct (result_profile res) as [p|] eqn:Hp; [|subst db'; by left].
    exfalso. unfold get_or_create_profile in Hgoc.
    destruct (goc_select (Some (id u)) db).
    + injection Hgoc as <- <-. discriminate.
    + apply goc_insert_CREATED in Hgoc as [(-> & _ & _)|(row & -> & _)]; discriminate.
Qed.

(** X17.  [authenticateUser] never throws.  When it answers [null] the store
    is untouched.  When it answers with a profile, that profile belongs to
    the subject the provider verified, its e-mail address, display name and
    avatar are the ones of the verified session (not the stored ones), the
    store holds a profile row of that subject afterwards, and the store is
    either untouched or has gained that one row. *)
Theorem authenticateUser_outcome (env : server_env) (db : database) :
  exists o db',
    authenticateUser env db = (Normal o, db') /\
    match o with
    | None => db' = db
    | Some up =>
        exists u,
          verified env u /\ up_user_id up = id u /\
          up_email up = user_email u /\
          up_full_name up = default ∅ (user_metadata u) !! "full_name" /\
          up_avatar_url up = default ∅ (user_metadata u) !! "avatar_url" /\
          has_profile (id u) db' = true /\
          (db' = db \/
           exists row, has_profile (id u) db = false /\ user_id row = id u /\
                       db' = with_profiles db (profiles db ++ [row])%list)
    end.
Proof.
  destruct (authenticateUser_inversion env db)
    as [->|(u & r & p & db' & Hv & Hs & Hid & Hf & Hown & Hhas & Hdb & ->)].
  - by eexists _, _.
  - eexists _, _. split; [reflexivity|]. exists u. simpl.
    split; [exact Hv|]. split; [exact Hown|]. do 3 (split; [reflexivity|]).
    split; [exact Hhas|].
    destruct Hdb as [->|[Hno ->]]; [by left|]. right. by exists p.
Qed.

(** X18.  A request whose subject is verified, on a store that holds the
    subject's identity record, is always answered with a profile by
    [authenticateUser]: the profile of that subject, provisioned on the spot
    when it was missing. *)
Theorem authenticateUser_provisions
    (env : server_env) (db : database) (s : uuid) :
  presents env db (Some s) ->
  exists up db',
    authenticateUser env db = (Normal (Some up), db') /\
    up_user_id up = s /\ has_profile s db' = true.
Proof.
  intros (Hne & (u & Hv & Hid) & (r & Hs) & Hfault & Hau & Hnd).
  unfold authenticateUser, authenticateUser_try, try_catch.
  unfold mbind, js_mbind, js_bind.
  rewrite (getServerSession_verified env db u r Hv Hs). simpl.
  rewrite Hid. unfold truthy. rewrite bool_decide_eq_false_2 by done. simpl.
  destruct Hv as [[c Hc] _]. unfold await. rewrite Hc.
  unfold rpc_get_or_create_profile. rewrite Hfault.
  destruct (get_or_create_profile_registered (rpc_now env) s db Hau Hnd)
    as (res & db' & pr & Hgoc & Hsucc & Hprof & Hown).
  pose proof (get_or_create_profile_stored _ _ _ _ _ Hgoc) as Hst.
  rewrite Hgoc. simpl. rewrite Hsucc, Hprof. simpl.
  rewrite Hprof in Hst. destruct Hst as (_ & Hhas & _).
  eexists _, _. split; [reflexivity|]. by split.
Qed.

Lemma authenticateUser_provisions_witness :
  exists up db',
    authenticateUser env_u1 db_identities = (Normal (Some up), db') /\
    up_user_id up = "u1" /\ has_profile "u1" db' = true.
Proof.
  apply (authenticateUser_provisions env_u1 db_identities "u1").
  simpl. split; [done|]. split.
  { eexists. split; [split; [by eexists|reflexivity]|reflexivity]. }
  split; [by eexists|]. split; [reflexivity|]. split; [reflexivity|].
  apply (bool_decide_unpack _). by vm_compute.
Defined.

Lemma isAuthenticated_verified (env : server_env) (db : database) (u : User)
    (r : SessionResponse) :
  verified env u -> auth_getSession env = Normal r -> id u <> "" ->
  isAuthenticated env db = (Normal true, db).
Proof.
  intros Hv Hs Hid. unfold isAuthenticated, getCurrentUserId.
  unfold mbind, js_mbind, js_bind.
  rewrite (getServerSession_verified env db u r Hv Hs). simpl.
  unfold truthy. by rewrite (bool_decide_eq_false_2 _ Hid).
Qed.

(** X19.  [checkUserPermission] never throws, and it authorizes only an
    authenticated owner: when [authorized] is true, [isAuthenticated] is
    true for the same request, the returned user is the profile of the asked
    [userId], and the store holds that user's profile row; when [authorized]
    is false no user is returned. *)
Theorem checkUserPermission_authorizes_owner_only
    (env : server_env) (db : database) (userId : string) (permission : option string) :
  exists r db',
    checkUserPermission env userId permission db = (Normal r, db') /\
    if authorized r then
      (exists up, permitted_user r = Some up /\ up_user_id up = userId) /\
      has_profile userId db' = true /\
      isAuthenticated env db = (Normal true, db)
    else permitted_user r = None.
Proof.
  unfold checkUserPermission, checkUserPermission_try, try_catch.
  unfold mbind, js_mbind, js_bind.
  destruct (authenticateUser_inversion env db)
    as [->|(u & r & p & db' & Hv & Hs & Hid & Hf & Hown & Hhas & Hdb & ->)].
  - by eexists _, _.
  - simpl. destruct (decide (user_id p = userId)) as [Heq|Hne].
    + rewrite (bool_decide_eq_true_2 _ Heq). simpl.
      eexists _, _. split; [reflexivity|]. simpl.
      split; [by eexists|]. split; [congruence|].
      by eapply isAuthenticated_verified.
    + rewrite (bool_decide_eq_false_2 _ Hne). simpl. by eexists _, _.
Qed.



(** X21.  For the owner, [getUserBasicInfo] finds the row: a signed-in
    caller asking for their own identifier, on a store that satisfies the
    key constraint and holds their profile, gets that profile's columns. *)
Theorem getUserBasicInfo_own_profile
    (env : server_env) (ctx : auth_ctx) (db : database) (p : profile) (c : unit) :
  createServerSupabase env = Normal c ->
  auth_uid ctx = Some (user_id p) ->
  NoDup (List.map user_id (profiles db)) ->
  In p (profiles db) ->
  getUserBasicInfo env ctx None (user_id p) db
  = (Normal (Some {| bi_id := user_id p; bi_email := email p;
                     bi_full_name := full_name p; bi_avatar_url := avatar_url p;
                     bi_created_at := created_at p; bi_updated_at := updated_at p |}),
     db).
Proof.
  intros Hc Huid Hnd Hin.
  unfold getUserBasicInfo, getUserBasicInfo_try, try_catch.
  unfold mbind, js_mbind, js_bind, await, read, mret, js_mret, js_ret.
  rewrite Hc. unfold select_profile_single.
  assert (List.filter
            (fun q => rls_permits profiles_policies ctx SELECT q
                      && bool_decide (user_id q = user_id p)) (profiles db) = [p]) as ->;
    [|done].
  induction (profiles db) as [|q l IH]; [by destruct Hin|].
  simpl in Hnd. apply NoDup_cons in Hnd as [Hq Hl]. cbn [List.filter].
  destruct Hin as [->|Hin].
  - rewrite rls_permits_profiles, Huid.
    rewrite holds_sql_eq_Some.
    rewrite !bool_decide_eq_true_2 by done. cbn [andb orb]. f_equal.
    apply existsb_false_filter_nil. apply not_true_iff_false.
    intros (q & Hq' & [_ Hk%bool_decide_eq_true_1]%andb_true_iff)%existsb_exists.
    apply Hq. apply list_elem_of_fmap. exists q. split; [done|by apply list_elem_of_In].
  - assert (user_id q <> user_id p) as Hne.
    { intros Heq. apply Hq. rewrite Heq. apply list_elem_of_fmap.
      exists p. split; [done|by apply list_elem_of_In]. }
    rewrite (bool_decide_eq_false_2 _ Hne), andb_false_r. by apply IH.
Qed.

Lemma getUserBasicInfo_own_profile_witness :
  getUserBasicInfo env_u1 ctx_u1 None (user_id alice_profile) db_profiles
  = (Normal (Some {| bi_id := "u1"; bi_email := Some "alice@example.com";
                     bi_full_name := Some "Alice"; bi_avatar_url := Some "";
                     bi_created_at := 100; bi_updated_at := 100 |}),
     db_profiles).
Proof.
  apply (getUserBasicInfo_own_profile env_u1 ctx_u1 db_profiles alice_profile tt).
  - reflexivity.
  - reflexivity.
  - apply (bool_decide_unpack _). by vm_compute.
  - by left.
Defined.

(* ===================================================================== *)
(** ** More on the OAuth callback reconciler *)
(* ===================================================================== *)

Ltac unfold_callback :=
  unfold session_of, land, handleAuthCallback, obtain_session, call_provider,
    setStatus, setMessage, setTimeout_push, replaceState, initial;
  run_js; simpl.

(** X22.  Every landing ends with exactly one pending redirect, and it
    matches the outcome: the handler never throws; when it has obtained a
    session the status is success, the success message is shown and the one
    timer leads to the success destination after the success delay; otherwise
    the status is error and the one timer leads to the failure destination
    after the failure delay. *)
Theorem handleAuthCallback_one_redirect
    (props : AuthCallbackProps) (env : callback_env) (url : URL) :
  exists o,
    session_of props env url = Normal o /\
    match o with
    | Some _ =>
        status (land props env url) = st_success /\
        message (land props env url) = SUCCESS_MESSAGE /\
        timers (land props env url) = [(successDelay props, successRedirect props)]
    | None =>
        status (land props env url) = st_error /\
        timers (land props env url) = [(errorDelay props, errorRedirect props)]
    end.
Proof.
  unfold_callback.
  destruct (or_else (get url "error_description") (get url "error")) as [e|]; simpl;
    [destruct (truthy e); simpl;
       [destruct (decodeURIComponent env e); simpl; by eexists|]|];
    (destruct (createClient env); simpl; [|by eexists]);
    (destruct (truthy_opt (get url "code")); simpl;
       [destruct (exchangeCodeForSession env url) as [[[s|] [err|]]|err]; simpl;
          try (destruct (getSession env) as [[[s'|] err']|err']; simpl)
       |destruct (getSession env) as [[[s'|] [err'|]]|err']; simpl]);
    by eexists.
Qed.

Lemma land_provider_calls
    (props : AuthCallbackProps) (env : callback_env) (url : URL) :
  provider_calls (land props env url)
  = if has_oauth_error url then []
    else match createClient env with
         | Throw _ => []
         | Normal _ =>
             if has_code url
             then ExchangeCodeForSession url
                  :: (if exchange_failed env url then [GetSession] else [])
             else [GetSession]
         end.
Proof.
  unfold has_oauth_error, has_code, exchange_failed. unfold_callback.
  destruct (or_else (get url "error_description") (get url "error")) as [e|]; simpl;
    [destruct (truthy e); simpl;
       [destruct (decodeURIComponent env e); simpl; reflexivity|]|];
    (destruct (createClient env); simpl; [|reflexivity]);
    (destruct (truthy_opt (get url "code")); simpl;
       [destruct (exchangeCodeForSession env url) as [[[s|] [err|]]|err]; simpl;
          try (destruct (getSession env) as [[[s'|] err']|err']; simpl)
       |destruct (getSession env) as [[[s'|] [err'|]]|err']; simpl]);
    reflexivity.
Qed.

(** X23.  What the reconciler asks the provider: nothing when the URL
    carries an OAuth error or no client can be built; with a code, one
    exchange, followed by one session lookup exactly when the exchange
    failed; without a code, one session lookup.  So there is never more than
    one exchange and never more than one lookup per landing. *)
Theorem handleAuthCallback_provider_calls
    (props : AuthCallbackProps) (env : callback_env) (url : URL) :
  provider_calls (land props env url)
  = (if has_oauth_error url then []
     else match createClient env with
          | Throw _ => []
          | Normal _ =>
              if has_code url
              then ExchangeCodeForSession url
                   :: (if exchange_failed env url then [GetSession] else [])
              else [GetSession]
          end) /\
  (length (List.filter is_exchange (provider_calls (land props env url))) <= 1) /\
  (length (List.filter (fun c => negb (is_exchange c))
             (provider_calls (land props env url))) <= 1).
Proof.
  rewrite land_provider_calls. split; [reflexivity|].
  destruct (has_oauth_error url); simpl; [lia|].
  destruct (createClient env); simpl; [|lia].
  destruct (has_code url); simpl; [|lia].
  destruct (exchange_failed env url); simpl; lia.
Qed.

(** X24.  A refresh cannot replay the code: once a landing has got as far as
    the code exchange, running the reconciler again on the URL it left
    behind, with whatever answers from the provider, sends no exchange. *)
Theorem refresh_after_exchange_never_exchanges
    (props props' : AuthCallbackProps) (env env' : callback_env) (url : URL) :
  exchange_attempted env url = true ->
  existsb is_exchange
    (provider_calls (land props' env' (location (land props env url)))) = false.
Proof.
  intros Hatt.
  destruct (land_terminal_location props env url) as (_ & _ & ->).
  rewrite Hatt, land_provider_calls.
  change (has_oauth_error (bare url)) with false.
  change (has_code (bare url)) with false.
  simpl. by destruct (createClient env').
Qed.

Lemma refresh_after_exchange_never_exchanges_witness :
  existsb is_exchange
    (provider_calls
       (land default_props env_no_session
          (location (land default_props env_replayed url_code)))) = false.
Proof.
  apply (refresh_after_exchange_never_exchanges default_props default_props
           env_replayed env_no_session url_code).
  reflexivity.
Defined.

(** X25.  On a landing with an OAuth error, the text that is decoded and
    shown is that of [error_description] when it is not empty and that of
    [error] otherwise; when [decodeURIComponent] rejects the text, the
    message of that rejection is shown instead.  Either way the landing ends
    failed, with no request to the provider. *)
Theorem oauth_error_message
    (props : AuthCallbackProps) (env : callback_env) (url : URL) (e : string) :
  oauth_error_text url = Some e ->
  e <> "" ->
  status (land props env url) = st_error /\
  provider_calls (land props env url) = [] /\
  message (land props env url)
  = match decodeURIComponent env e with
    | Normal text => shown_message (Error text)
    | Throw rejection => shown_message rejection
    end.
Proof.
  unfold oauth_error_text, shown_message. intros He Hne. unfold_callback.
  rewrite He. unfold truthy. rewrite (bool_decide_eq_false_2 _ Hne). simpl.
  by destruct (decodeURIComponent env e).
Qed.

Lemma oauth_error_message_witness :
  status (land default_props env_replayed url_denied) = st_error /\
  provider_calls (land default_props env_replayed url_denied) = [] /\
  message (land default_props env_replayed url_denied)
  = match decodeURIComponent env_replayed "User denied" with
    | Normal text => shown_message (Error text)
    | Throw rejection => shown_message rejection
    end.
Proof.
  apply (oauth_error_message default_props env_replayed url_denied "User denied");
    [reflexivity|discriminate].
Defined.

(** X26.  On a landing with neither an OAuth error nor a code, the one
    session lookup decides, and the URL is left alone: an error in the
    answer fails the landing with that error's message even if a session
    came with it; otherwise a session succeeds and no session fails with the
    no-session message. *)
Theorem direct_lookup_outcome
    (props : AuthCallbackProps) (env : callback_env) (url : URL)
    (c : unit) (lookup : SessionResponse) :
  has_oauth_error url = false ->
  has_code url = false ->
  createClient env = Normal c ->
  getSession env = Normal lookup ->
  location (land props env url) = url /\
  match session_error lookup, data_session lookup with
  | Some e, _ =>
      status (land props env url) = st_error /\
      message (land props env url) = shown_message e
  | None, Some s =>
      status (land props env url) = st_success /\
      session_of props env url = Normal (Some s)
  | None, None =>
      status (land props env url) = st_error /\
      message (land props env url) = NO_SESSION_MESSAGE
  end.
Proof.
  unfold has_oauth_error, has_code, shown_message. intros Herr Hcode Hc Hl.
  unfold_callback.
  destruct (or_else (get url "error_description") (get url "error")) as [e|];
    simpl in *; [rewrite Herr|]; simpl;
    rewrite Hc; simpl; rewrite Hcode; simpl; rewrite Hl;
    destruct lookup as [[s|] [err|]]; simpl; repeat split.
Qed.

Lemma direct_lookup_outcome_witness :
  location (land default_props env_replayed (bare url_code)) = bare url_code /\
  status (land default_props env_replayed (bare url_code)) = st_success /\
  session_of default_props env_replayed (bare url_code) = Normal (Some established).
Proof.
  apply (direct_lookup_outcome default_props env_replayed (bare url_code) tt
           {| data_session := Some established; session_error := None |});
    reflexivity.
Defined.

(** X27.  When the code exchange answers without an error, its answer
    decides and no session lookup follows: a session succeeds; an answer with
    neither error nor session fails the landing with the no-session message,
    without falling back. *)
Theorem exchange_answer_decides
    (props : AuthCallbackProps) (env : callback_env) (url : URL)
    (answer : SessionResponse) :
  exchange_attempted env url = true ->
  exchangeCodeForSession env url = Normal answer ->
  session_error answer = None ->
  provider_calls (land props env url) = [ExchangeCodeForSession url] /\
  match data_session answer with
  | Some s =>
      status (land props env url) = st_success /\
      session_of props env url = Normal (Some s)
  | None =>
      status (land props env url) = st_error /\
      message (land props env url) = NO_SESSION_MESSAGE
  end.
Proof.
  unfold exchange_attempted, has_oauth_error, has_code.
  intros Hatt Hx Hnoerr.
  apply andb_true_iff in Hatt as [Hatt Hclient].
  apply andb_true_iff in Hatt as [Herr Hcode].
  apply negb_true_iff in Herr.
  unfold_callback.
  destruct (or_else (get url "error_description") (get url "error")) as [e|];
    simpl in *; [rewrite Herr|]; simpl;
    (destruct (createClient env); [|discriminate]); simpl;
    rewrite Hcode; simpl; rewrite Hx;
    destruct answer as [[s|] [err|]]; simpl in *; try discriminate; repeat split.
Qed.

Lemma exchange_answer_decides_witness :
  provider_calls
    (land default_props
       {| decodeURIComponent := fun s => Normal s; createClient := Normal tt;
          exchangeCodeForSession := fun _ =>
            Normal {| data_session := Some established; session_error := None |};
          getSession := Throw (Error "unused") |} url_code)
  = [ExchangeCodeForSession url_code] /\
  status
    (land default_props
       {| decodeURIComponent := fun s => Normal s; createClient := Normal tt;
          exchangeCodeForSession := fun _ =>
            Normal {| data_session := Some established; session_error := None |};
          getSession := Throw (Error "unused") |} url_code) = st_success /\
  session_of default_props
    {| decodeURIComponent := fun s => Normal s; createClient := Normal tt;
       exchangeCodeForSession := fun _ =>
         Normal {| data_session := Some established; session_error := None |};
       getSession := Throw (Error "unused") |} url_code
  = Normal (Some established).
Proof.
  apply (exchange_answer_decides default_props _ url_code
           {| data_session := Some established; session_error := None |});
    reflexivity.
Defined.

(** X11.  [test_auth_setup], both ways: on a store where the drawn
    identifier has no profile, the test passes exactly when the identifier names an
    identity record, reports the foreign-key error otherwise, and leaves the
    store as it was in both cases. *)
Theorem test_auth_setup_outcome
    (test_user_id : uuid) (now : timestamptz) (SQLERRM : sqlstate -> text) (db : database) :
  has_profile test_user_id db = false ->
  test_auth_setup test_user_id now SQLERRM db
  = (if has_auth_user test_user_id db then TEST_PASSED
     else TEST_ERROR +:+ SQLERRM foreign_key_violation, db).
Proof.
  intros Hp. destruct (has_auth_user test_user_id db) eqn:Ha.
  - by apply test_auth_setup_passes_and_cleans_up.
  - by apply test_auth_setup_fresh_id_errors.
Qed.

Lemma test_auth_setup_outcome_witness :
  test_auth_setup "u9" 200 sqlstate_message db_profiles
  = (if has_auth_user "u9" db_profiles then TEST_PASSED
     else TEST_ERROR +:+ sqlstate_message foreign_key_violation, db_profiles).
Proof.
  apply (test_auth_setup_outcome "u9" 200 sqlstate_message db_profiles). reflexivity.
Defined.

(* ===================================================================== *)
(** ** Configuration, route guard, auth context and login form *)
(* ===================================================================== *)

(** X12.  [validateAuthConfig] reports exactly the required variables that
    are unset or set to the empty string, in the order they are required, and
    the configuration is valid exactly when every required variable has a
    non-empty value. *)
Theorem validateAuthConfig_reports_missing (penv : process_env) :
  missingVars (validateAuthConfig penv)
  = List.filter (fun v => bool_decide (penv !! v = None \/ penv !! v = Some ""))
      requiredVars /\
  (valid (validateAuthConfig penv) = true <->
   forall v, In v requiredVars -> exists value, penv !! v = Some value /\ value <> "").
Proof.
  assert (Hmiss : forall v, negb (truthy_opt (penv !! v))
                            = bool_decide (penv !! v = None \/ penv !! v = Some "")).
  { intros v. unfold truthy_opt, truthy. destruct (penv !! v) as [x|].
    - rewrite negb_involutive. destruct (decide (x = "")) as [->|Hne].
      + rewrite !bool_decide_eq_true_2; [done|by right|done].
      + rewrite !bool_decide_eq_false_2; [done| |done].
        intros [[=]|[=]]. done.
    - first [reflexivity | simpl; symmetry; apply bool_decide_eq_true_2; by left]. }
  split.
  - unfold validateAuthConfig. simpl. by rewrite !Hmiss.
  - unfold validateAuthConfig. cbn [valid].
    rewrite bool_decide_eq_true, length_zero_iff_nil.
    split.
    + intros Hnil v Hin.
      assert (negb (truthy_opt (penv !! v)) = false) as Hv.
      { apply not_true_iff_false. intros Ht.
        assert (In v (List.filter (fun varName => negb (truthy_opt (penv !! varName)))
                        requiredVars)) as Habs by (apply List.filter_In; by split).
        rewrite Hnil in Habs. destruct Habs. }
      apply negb_false_iff in Hv. unfold truthy_opt, truthy in Hv.
      destruct (penv !! v) as [x|]; [|discriminate].
      exists x. split; [done|]. apply negb_true_iff in Hv.
      by apply bool_decide_eq_false_1 in Hv.
    + intros Hall. apply existsb_false_filter_nil. apply not_true_iff_false.
      intros (v & Hin & Hv)%existsb_exists.
      destruct (Hall v Hin) as (x & Hx & Hne).
      rewrite Hx in Hv. unfold truthy_opt, truthy in Hv.
      rewrite (bool_decide_eq_false_2 _ Hne) in Hv. discriminate.
Qed.



(** X29.  [getInitialUser] never throws and always ends with [loading]
    false.  The context holds a user only when [getUser] answered without an error and
    the session fetch that follows returned; an error answer, or a throw of
    either call, leaves both user and session empty, even if a user had
    already been set. *)
Theorem getInitialUser_outcome (c : auth_client) (st : auth_state) :
  getInitialUser c st =
    (Normal tt,
     match client_getUser c with
     | Normal r =>
         match user_error r, client_getSession c with
         | None, Normal s =>
             {| ctx_user := data_user r; ctx_session := data_session s;
                ctx_loading := false |}
         | _, _ => {| ctx_user := None; ctx_session := None; ctx_loading := false |}
         end
     | Throw _ => {| ctx_user := None; ctx_session := None; ctx_loading := false |}
     end).
Proof.
  unfold getInitialUser, setUser, setSession, setLoading. run_js.
  destruct (client_getUser c) as [[u [e|]]|e]; simpl; try reflexivity.
  by destruct (client_getSession c).
Qed.

(** X30.  [handleEmailAuth] never throws and always clears the loading
    flag.  It navigates to [redirectTo], once, exactly when the sign-in or sign-up
    call returns without an error, and then shows no error text; when the
    call returns an error it shows that error's message, and when the call
    throws it shows the thrown message or, if that is empty, the fallback
    text; in both failure cases it does not navigate. *)
Theorem handleEmailAuth_outcome
    (acts : auth_actions) (isSignUp : bool) (email password redirectTo : string)
    (st : form_state) :
  handleEmailAuth acts isSignUp email password redirectTo st =
    (Normal tt,
     match (if isSignUp then act_signUp acts email password
            else act_signIn acts email password) with
     | Normal None =>
         {| isLoading := false; form_error := "";
            form_pushes := (form_pushes st ++ [redirectTo])%list |}
     | Normal (Some e) =>
         {| isLoading := false; form_error := error_message e;
            form_pushes := form_pushes st |}
     | Throw err =>
         {| isLoading := false;
            form_error := or_default (Some (error_message err)) "操作失败";
            form_pushes := form_pushes st |}
     end).
Proof.
  unfold handleEmailAuth, setIsLoading, setError, router_push. run_js. simpl.
  by destruct (if isSignUp then act_signUp acts email password
               else act_signIn acts email password) as [[e|]|e].
Qed.

(** The OAuth buttons: when the start call returns without an error the
    loading flag stays set (the browser is leaving the page) and no error is
    shown; when it returns an error, that error's message is shown, and when
    it throws, the fixed failure text; in both cases loading is cleared. *)
Lemma handleOAuthSignIn_outcome
    (start : completion (option js_error)) (failure_text : string) (st : form_state) :
  handleOAuthSignIn start failure_text st =
    (Normal tt,
     match start with
     | Normal None =>
         {| isLoading := true; form_error := ""; form_pushes := form_pushes st |}
     | Normal (Some e) =>
         {| isLoading := false; form_error := error_message e;
            form_pushes := form_pushes st |}
     | Throw _ =>
         {| isLoading := false; form_error := failure_text;
            form_pushes := form_pushes st |}
     end).
Proof.
  unfold handleOAuthSignIn, setIsLoading, setError. run_js. simpl.
  by destruct start as [[e|]|e].
Qed.
